(** * tftp-http-proxy: the request bridge of [main.go], embedded and verified

  The program serves TFTP read requests by fetching the requested file
  over HTTP.  This development embeds the two functions that carry the
  logic, [parseBaseURL] and [tftpReadHandler], together with [main], and
  proves what they guarantee about the fetch target, the request, the
  interpretation of the response, the sink and the base address.

  What the program calls in the Go standard library and in the TFTP
  engine ([url.ParseRequestURI], [http.NewRequest], [http.Client.Do],
  [io.ReaderFrom.ReadFrom], ...) is not part of the program: those calls
  are variables of the section [Bridge], so every theorem holds for every
  behaviour of the libraries.  The two string functions the program
  relies on for its own guarantees, [strings.TrimLeft] and
  [strings.HasSuffix], are embedded in full. *)

From Stdlib Require Import String Ascii List ZArith NArith Bool Lia.
From Stdlib Require Import DecimalString DecimalZ DecimalPos.
Import ListNotations.
Open Scope string_scope.

(** ** Strings *)

Module strings.

(** [strings.IndexByte(cutset, c) >= 0]: the byte [c] occurs in [cutset]. *)
Fixpoint containsByte (cutset : string) (c : ascii) : bool :=
  match cutset with
  | EmptyString => false
  | String d rest => Ascii.eqb c d || containsByte rest c
  end.

(** [strings.TrimLeft(s, cutset)] for a cutset of ASCII bytes (the
    program's cutset is ["/"]): the longest prefix of [s] made of bytes
    of the cutset is removed.  Go works on bytes there
    ([trimLeftByte], [trimLeftASCII]), and so does this definition. *)
Fixpoint TrimLeft (s cutset : string) : string :=
  match s with
  | EmptyString => EmptyString
  | String c rest => if containsByte cutset c then TrimLeft rest cutset else s
  end.

(** [strings.HasSuffix(s, suffix)]:
    [len(s) >= len(suffix) && s[len(s)-len(suffix):] == suffix]. *)
Definition HasSuffix (s suffix : string) : bool :=
  (String.length suffix <=? String.length s)%nat
  && String.eqb
       (substring (String.length s - String.length suffix) (String.length suffix) s)
       suffix.

(** [strings.Repeat(c, n)] for a one-byte string, used to state what
    [TrimLeft] removes. *)
Fixpoint Repeat (c : ascii) (n : nat) : string :=
  match n with
  | O => EmptyString
  | S k => String c (Repeat c k)
  end.

(** The first byte of [s], when there is one, is not in [cutset]. *)
Definition startsOutside (cutset s : string) : Prop :=
  match s with
  | EmptyString => True
  | String c _ => containsByte cutset c = false
  end.

End strings.

(** The path separator of URLs and of TFTP file names, as the cutset and
    suffix the program passes to [strings]. *)
Definition slash : string := "/".

(** The line feed that ends the formats of [log.Panicf]. *)
Definition LF : string := String (ascii_of_nat 10) EmptyString.

(** [fmt.Sprintf("%d", n)]. *)
Definition Sprintf_d (n : Z) : string := NilZero.string_of_int (Z.to_int n).

(** ** Header fields and credentials

    [http.Header] and [SetBasicAuth] belong to [net/http]; they are
    embedded from the library's source, since what the handler puts on a
    request is only visible through them. *)

Module textproto.

Definition isLower (c : ascii) : bool :=
  (97 <=? nat_of_ascii c)%nat && (nat_of_ascii c <=? 122)%nat.

Definition isUpper (c : ascii) : bool :=
  (65 <=? nat_of_ascii c)%nat && (nat_of_ascii c <=? 90)%nat.

Definition isDigit (c : ascii) : bool :=
  (48 <=? nat_of_ascii c)%nat && (nat_of_ascii c <=? 57)%nat.

(** ['a' - 'A']. *)
Definition toLower : nat := 32.

(** The bytes of an HTTP token. *)
Definition validHeaderFieldByte (c : ascii) : bool :=
  isLower c || isUpper c || isDigit c
  || strings.containsByte "!#$%&'*+-.^_`|~" c.

Fixpoint allValid (s : string) : bool :=
  match s with
  | EmptyString => true
  | String c rest => validHeaderFieldByte c && allValid rest
  end.

(** The first letter and every letter after a dash in upper case, the
    other letters in lower case. *)
Fixpoint canonicalize (upper : bool) (s : string) : string :=
  match s with
  | EmptyString => EmptyString
  | String c rest =>
      let c' :=
        if upper && isLower c then ascii_of_nat (nat_of_ascii c - toLower)
        else if negb upper && isUpper c
             then ascii_of_nat (nat_of_ascii c + toLower)
             else c in
      String c' (canonicalize (Ascii.eqb c' "-") rest)
  end.

(** [textproto.CanonicalMIMEHeaderKey]: a key with a byte that is not of
    a token is returned as it is. *)
Definition CanonicalMIMEHeaderKey (s : string) : string :=
  if allValid s then canonicalize true s else s.

End textproto.

Module base64.

Definition encodeStd : string :=
  "ABCDEFGHIJKLMNOPQRSTUVWXYZabcdefghijklmnopqrstuvwxyz0123456789+/".

(** [enc.encode[v & 0x3F]]. *)
Definition enc (v : N) : ascii :=
  match String.get (N.to_nat (N.land v 63)) encodeStd with
  | Some c => c
  | None => "="%char
  end.

(** [base64.StdEncoding.EncodeToString]: three bytes give four
    characters, and what is left over is padded with [=]. *)
Fixpoint EncodeToString (src : string) : string :=
  match src with
  | EmptyString => EmptyString
  | String a EmptyString =>
      let val := N.shiftl (N_of_ascii a) 16 in
      String (enc (N.shiftr val 18)) (String (enc (N.shiftr val 12)) "==")
  | String a (String b EmptyString) =>
      let val := N.lor (N.shiftl (N_of_ascii a) 16) (N.shiftl (N_of_ascii b) 8) in
      String (enc (N.shiftr val 18))
        (String (enc (N.shiftr val 12)) (String (enc (N.shiftr val 6)) "="))
  | String a (String b (String c rest)) =>
      let val := N.lor (N.lor (N.shiftl (N_of_ascii a) 16)
                          (N.shiftl (N_of_ascii b) 8)) (N_of_ascii c) in
      String (enc (N.shiftr val 18))
        (String (enc (N.shiftr val 12))
           (String (enc (N.shiftr val 6))
              (String (enc val) (EncodeToString rest))))
  end.

End base64.

Module http.

(** [http.Header], a map from canonical keys to the values added under
    them.  The order of the keys is that of their first insertion; Go's
    map has none, and nothing below depends on it. *)
Definition Header : Type := list (string * list string).

(** [h[key]]. *)
Fixpoint values (h : Header) (key : string) : list string :=
  match h with
  | nil => nil
  | (k, vs) :: rest => if String.eqb k key then vs else values rest key
  end.

(** [h[key] = vs]. *)
Fixpoint store (h : Header) (key : string) (vs : list string) : Header :=
  match h with
  | nil => (key, vs) :: nil
  | (k, old) :: rest =>
      if String.eqb k key then (k, vs) :: rest
      else (k, old) :: store rest key vs
  end.

(** [h.Add(key, value)]. *)
Definition Add (h : Header) (key value : string) : Header :=
  let k := textproto.CanonicalMIMEHeaderKey key in
  store h k (values h k ++ value :: nil)%list.

(** [h.Set(key, value)]. *)
Definition Set_ (h : Header) (key value : string) : Header :=
  store h (textproto.CanonicalMIMEHeaderKey key) (value :: nil).

(** [h.Values(key)]. *)
Definition Values (h : Header) (key : string) : list string :=
  values h (textproto.CanonicalMIMEHeaderKey key).

(** [h.Get(key)]: the first value, or the empty string. *)
Definition Get (h : Header) (key : string) : string :=
  match Values h key with
  | nil => ""
  | v :: _ => v
  end.

(** [basicAuth(username, password)]. *)
Definition basicAuth (username password : string) : string :=
  base64.EncodeToString (username ++ ":" ++ password).

End http.

(** ** Statements, calls and their effects

    A Go statement is modelled by the events it performs on the outside
    world, in order, and by the way it ends: control goes on with a value,
    the enclosing function returns, or it panics. *)

Module Go.

Inductive Flow (R A : Type) : Type :=
| Next (a : A)
| Return (r : R)
| Panic (msg : string).
Arguments Next {R A} a.
Arguments Return {R A} r.
Arguments Panic {R A} msg.

(** A statement of a function with result type [R], over events [E]. *)
Definition M (E R A : Type) : Type := (list E * Flow R A)%type.

Definition ret {E R A} (a : A) : M E R A := (nil, Next a).

Definition bind {E R A B} (m : M E R A) (k : A -> M E R B) : M E R B :=
  match m with
  | (t, Next a) => let (t', f) := k a in ((t ++ t')%list, f)
  | (t, Return r) => (t, Return r)
  | (t, Panic msg) => (t, Panic msg)
  end.

Definition emit {E R} (e : E) : M E R unit := ((e :: nil)%list, Next tt).
Definition return_ {E R A} (r : R) : M E R A := (nil, Return r).
Definition panic {E R A} (msg : string) : M E R A := (nil, Panic msg).

(** [defer d(); rest], where [rest] is the remainder of the function body:
    the events of the deferred call happen when the function is left,
    whichever way it is left. *)
Definition defer {E R A} (d : list E) (rest : M E R A) : M E R A :=
  ((fst rest ++ d)%list, snd rest).

(** The result of a call. *)
Inductive Result (R : Type) : Type :=
| Returned (r : R)
| Panicked (msg : string).
Arguments Returned {R} r.
Arguments Panicked {R} msg.

(** A function body ends in [return] or in a panic: it has no value to go
    on with. *)
Definition call {E R} (body : M E R Empty_set) : list E * Result R :=
  match body with
  | (t, Next a) => match a with end
  | (t, Return r) => (t, Returned r)
  | (t, Panic msg) => (t, Panicked msg)
  end.

(** A call as a statement of the caller: the callee's result is the value
    of the statement and its panic goes up. *)
Definition invoke {E R R'} (body : M E R' Empty_set) : M E R R' :=
  match call body with
  | (t, Returned r) => (t, Next r)
  | (t, Panicked msg) => (t, Panic msg)
  end.

End Go.

Import Go.

Notation "x <- m ;; k" := (bind m (fun x => k))
  (at level 61, m at next level, right associativity).
Notation "m ;; k" := (bind m (fun _ => k))
  (at level 61, right associativity).

(** ** The program *)

Section Bridge.

(** *** What the libraries provide *)

(** Error values that come out of library calls, and their [Error()] text
    as [%v] prints it. *)
Variable LibErr : Type.
Variable LibErr_Error : LibErr -> string.

(** [net.IP] and its [String()]. *)
Variable IP : Type.
Variable IP_String : IP -> string.

(** [*url.URL]: the two fields the program reads, and [String()]. *)
Variable URL : Type.
Variable Scheme : URL -> string.
Variable Host : URL -> string.
Variable URL_String : URL -> string.

(** [url.ParseRequestURI]. *)
Variable ParseRequestURI : string -> URL + LibErr.

(** The body of an [http.Response]. *)
Variable Body : Type.

(** A Go [error] in this program: built here by [fmt.Errorf], or handed
    over unchanged from a library call. *)
Inductive error : Type :=
| Errorf (msg : string)
| Lib (e : LibErr).

Definition Error (e : error) : string :=
  match e with
  | Errorf msg => msg
  | Lib e => LibErr_Error e
  end.

(** [net.UDPAddr]. *)
Record UDPAddr : Type := mkUDPAddr { addrIP : IP; addrPort : Z }.

(** [http.Response]: the fields the handler reads. *)
Record Response : Type := mkResponse {
  StatusCode : Z;
  Status : string;
  ContentLength : Z;
  respBody : Body
}.

(** [http.Request]: the method and target given to [http.NewRequest],
    and the header. *)
Record Request : Type := mkRequest {
  Method : string;
  reqURL : string;
  Header : http.Header
}.

(** [http.NewRequest(method, uri, nil)] refuses the target, or not. *)
Variable NewRequest_refuses : string -> string -> option LibErr.

(** [globalState.httpClient.Do]. *)
Variable Do : Request -> Response + LibErr.

(** The [io.ReaderFrom] handed over by the TFTP engine: whether its
    dynamic type implements [tftp.OutgoingTransfer], the peer's address,
    and what [ReadFrom] returns for a body. *)
Record ReaderFrom : Type := mkReaderFrom {
  isOutgoingTransfer : bool;
  RemoteAddr : UDPAddr;
  ReadFrom : Body -> Z * option LibErr
}.

(** [ListenAndServe2] of the TFTP engine: whether it got to listen (it
    then runs the callback it was given) and the error it returns. *)
Variable ListenAndServe2 : string -> bool * option LibErr.

(** [systemd.SdNotify]. *)
Variable SdNotify : bool -> string -> bool * option LibErr.

(** *** Events *)

Inductive Event : Type :=
| EvLog (msg : string)
| EvNewRequest (method uri : string)
| EvHeaderAdd (key value : string)
| EvSetBasicAuth (username password : string)
| EvDo (req : Request)
| EvBodyClose (b : Body)
| EvSetSize (n : Z)
| EvReadFrom (b : Body)
| EvNewServer
| EvSetTimeout (d : Z)
| EvListenAndServe (addr : string)
| EvSdNotify (state : string).

Definition Stmt (R A : Type) : Type := M Event R A.

(** [log.Printf] and [log.Panicf], with the message already formatted. *)
Definition Printf {R} (msg : string) : Stmt R unit := emit (EvLog msg).

Definition Panicf {R A} (msg : string) : Stmt R A :=
  emit (EvLog msg) ;; panic msg.

(** [http.NewRequest(method, uri, nil)]. *)
Definition NewRequest {R} (method uri : string) : Stmt R (Request + LibErr) :=
  emit (EvNewRequest method uri) ;;
  match NewRequest_refuses method uri with
  | Some err => ret (inr err)
  | None => ret (inl (mkRequest method uri nil))
  end.

(** [req.Header.Add(key, value)]. *)
Definition Header_Add {R} (req : Request) (key value : string) : Stmt R Request :=
  emit (EvHeaderAdd key value) ;;
  ret (mkRequest (Method req) (reqURL req) (http.Add (Header req) key value)).

(** [req.SetBasicAuth(username, password)]:
    [r.Header.Set("Authorization", "Basic "+basicAuth(username, password))]. *)
Definition SetBasicAuth {R} (req : Request) (username password : string)
  : Stmt R Request :=
  emit (EvSetBasicAuth username password) ;;
  ret (mkRequest (Method req) (reqURL req)
         (http.Set_ (Header req) "Authorization"
            ("Basic " ++ http.basicAuth username password))).

(** [rf.(tftp.OutgoingTransfer)]: a type assertion without [ok] panics
    when it fails. *)
Definition asOutgoingTransfer {R} (rf : ReaderFrom) : Stmt R ReaderFrom :=
  if isOutgoingTransfer rf then ret rf
  else panic "interface conversion: io.ReaderFrom is not tftp.OutgoingTransfer".

(** *** [globalState] *)

Record GlobalState : Type := mkGlobalState {
  httpBaseUrl : string;
  appendPath : bool;
  authUsername : string;
  authPassword : string
}.

Definition httpBaseUrlDefault : string := "http://127.0.0.1/tftp".
Definition tftpTimeoutDefault : Z := 5 * 1000000000.
Definition tftpBindAddrDefault : string := ":69".
Definition appendPathDefault : bool := true.

Definition http_StatusNotFound : Z := 404.
Definition http_StatusOK : Z := 200.

(** *** [tftpReadHandler] *)

(** Lines 40-48: the address the request is made for. *)
Definition fetchURI (g : GlobalState) (filename : string) : string :=
  let uri := httpBaseUrl g in
  if appendPath g then uri ++ strings.TrimLeft filename slash else uri.

(** Lines 77-88, after the status has been found to be 200. *)
Definition transfer (rf : ReaderFrom) (resp : Response)
  : Stmt (option error) Empty_set :=
  (if (ContentLength resp >=? 0)%Z
   then ot <- asOutgoingTransfer rf ;; emit (EvSetSize (ContentLength resp))
   else ret tt) ;;
  emit (EvReadFrom (respBody resp)) ;;
  match snd (ReadFrom rf (respBody resp)) with
  | Some err =>
      Printf ("ERR: ReadFrom failed: " ++ LibErr_Error err) ;;
      return_ (Some (Lib err))
  | None => return_ None
  end.

(** Lines 69-88, after the response has arrived. *)
Definition interpret (rf : ReaderFrom) (resp : Response)
  : Stmt (option error) Empty_set :=
  if (StatusCode resp =? http_StatusNotFound)%Z then
    Printf ("INFO: http FileNotFound response: " ++ Status resp) ;;
    return_ (Some (Errorf "File not found"))
  else if negb (StatusCode resp =? http_StatusOK)%Z then
    Printf ("ERR: http request returned status " ++ Status resp) ;;
    return_ (Some (Errorf ("HTTP request error: " ++ Status resp)))
  else transfer rf resp.

(** Lines 62-88, on what [Do] returned.  The deferred [resp.Body.Close()]
    is registered once the response is there and covers the rest of the
    function. *)
Definition respond (rf : ReaderFrom) (r : Response + LibErr)
  : Stmt (option error) Empty_set :=
  match r with
  | inr err =>
      Printf ("ERR: http request failed: " ++ LibErr_Error err) ;;
      return_ (Some (Lib err))
  | inl resp =>
      defer (EvBodyClose (respBody resp) :: nil) (interpret rf resp)
  end.

(** Lines 56-61: the request metadata and the credentials. *)
Definition decorate {R} (g : GlobalState) (filename : string)
  (raddr : UDPAddr) (req : Request) : Stmt R Request :=
  req <- Header_Add req "X-TFTP-IP" (IP_String (addrIP raddr)) ;;
  req <- Header_Add req "X-TFTP-Port" (Sprintf_d (addrPort raddr)) ;;
  req <- Header_Add req "X-TFTP-File" filename ;;
  if negb (authUsername g =? "")
  then SetBasicAuth req (authUsername g) (authPassword g)
  else ret req.

Definition tftpReadHandler (g : GlobalState) (filename : string)
  (rf : ReaderFrom) : Stmt (option error) Empty_set :=
  ot <- asOutgoingTransfer rf ;;
  let raddr := RemoteAddr ot in
  Printf ("INFO: New TFTP request (" ++ filename ++ ") from "
          ++ IP_String (addrIP raddr)) ;;
  let uri := fetchURI g filename in
  r <- NewRequest "GET" uri ;;
  match r with
  | inr err =>
      Printf ("ERR: http request setup failed: " ++ LibErr_Error err) ;;
      return_ (Some (Lib err))
  | inl req =>
      Printf ("URI: " ++ uri) ;;
      req <- decorate g filename raddr req ;;
      emit (EvDo req) ;;
      respond rf (Do req)
  end.

(** *** [parseBaseURL] *)

Definition parseBaseURL (baseUrl : string) (appendPath : bool)
  : Stmt string Empty_set :=
  match ParseRequestURI baseUrl with
  | inr err => Panicf ("FATAL: invalid base URL: " ++ LibErr_Error err ++ LF)
  | inl u =>
      (if Scheme u =? "" then
         Panicf ("FATAL: invalid base URL: No scheme found." ++ LF)
       else ret tt) ;;
      (if Host u =? "" then
         Panicf ("FATAL: invalid base URL: No host found." ++ LF)
       else ret tt) ;;
      let base := URL_String u in
      if appendPath && negb (strings.HasSuffix base slash)
      then return_ (base ++ slash)
      else return_ base
  end.

(** *** [main] *)

(** The command line after [flag.Parse()]. *)
Record Flags : Type := mkFlags {
  flag_http_base_url : string;
  flag_http_append_path : bool;
  flag_tftp_timeout : Z;
  flag_tftp_bind_address : string;
  flag_http_auth_user : string;
  flag_http_auth_pass : string
}.

(** Lines 120-124: the value [globalState] has from then on. *)
Definition configure {R} (fl : Flags) : Stmt R GlobalState :=
  base <- invoke (parseBaseURL (flag_http_base_url fl) (flag_http_append_path fl)) ;;
  ret (mkGlobalState base (flag_http_append_path fl)
         (flag_http_auth_user fl) (flag_http_auth_pass fl)).

(** The callback given to [ListenAndServe2]. *)
Definition onListening {R} (bindAddr : string) : Stmt R unit :=
  Printf ("INFO: Listening TFTP requests on: " ++ bindAddr) ;;
  emit (EvSdNotify ("READY=1" ++ LF)) ;;
  match SdNotify true ("READY=1" ++ LF) with
  | (_, Some err) =>
      Printf ("WARN: Unable to send systemd daemon successful start message: "
              ++ LibErr_Error err ++ LF)
  | (true, None) => Printf ("DEBUG: Systemd was notified." ++ LF)
  | (false, None) => Printf ("DEBUG: Systemd notifications are not supported." ++ LF)
  end.

Definition main (fl : Flags) : Stmt unit Empty_set :=
  g <- configure fl ;;
  emit EvNewServer ;;
  emit (EvSetTimeout (flag_tftp_timeout fl)) ;;
  emit (EvListenAndServe (flag_tftp_bind_address fl)) ;;
  let (listening, err) := ListenAndServe2 (flag_tftp_bind_address fl) in
  (if listening then onListening (flag_tftp_bind_address fl) else ret tt) ;;
  match err with
  | Some e => Panicf ("FATAL: tftp server: " ++ LibErr_Error e ++ LF)
  | None => return_ tt
  end.

(** ** What a run of the handler shows *)

(** The events of one invocation of the handler, and its result. *)
Definition trace (g : GlobalState) (filename : string) (rf : ReaderFrom)
  : list Event :=
  fst (call (tftpReadHandler g filename rf)).

Definition outcome (g : GlobalState) (filename : string) (rf : ReaderFrom)
  : Result (option error) :=
  snd (call (tftpReadHandler g filename rf)).

(** The two operations of the engine's side of the transfer: the size
    declaration and the delivery of bytes. *)
Definition sinkEvent (e : Event) : bool :=
  match e with
  | EvSetSize _ | EvReadFrom _ => true
  | _ => false
  end.

(** Events that attach something to the request under construction. *)
Definition attachEvent (e : Event) : bool :=
  match e with
  | EvHeaderAdd _ _ | EvSetBasicAuth _ _ => true
  | _ => false
  end.

Definition dispatchEvent (e : Event) : bool :=
  match e with
  | EvDo _ => true
  | _ => false
  end.

Definition closeEvent (e : Event) : bool :=
  match e with
  | EvBodyClose _ => true
  | _ => false
  end.

(** No event of [t] satisfies [p]. *)
Definition none (p : Event -> bool) (t : list Event) : Prop :=
  forallb (fun e => negb (p e)) t = true.

(** The request the handler has built when it reaches [Do]. *)
Definition outbound (g : GlobalState) (filename : string) (raddr : UDPAddr)
  : Request :=
  mkRequest "GET" (fetchURI g filename)
    (("X-Tftp-Ip", IP_String (addrIP raddr) :: nil)
     :: ("X-Tftp-Port", Sprintf_d (addrPort raddr) :: nil)
     :: ("X-Tftp-File", filename :: nil)
     :: (if authUsername g =? "" then nil
         else ("Authorization",
               ("Basic " ++ http.basicAuth (authUsername g) (authPassword g))%string
               :: nil) :: nil))%list.

(** The events of the handler up to [Do], when the request is accepted. *)
Definition preamble (g : GlobalState) (filename : string) (raddr : UDPAddr)
  : list Event :=
  (EvLog ("INFO: New TFTP request (" ++ filename ++ ") from "
          ++ IP_String (addrIP raddr))
   :: EvNewRequest "GET" (fetchURI g filename)
   :: EvLog ("URI: " ++ fetchURI g filename)
   :: EvHeaderAdd "X-TFTP-IP" (IP_String (addrIP raddr))
   :: EvHeaderAdd "X-TFTP-Port" (Sprintf_d (addrPort raddr))
   :: EvHeaderAdd "X-TFTP-File" filename
   :: (if authUsername g =? "" then nil
       else EvSetBasicAuth (authUsername g) (authPassword g) :: nil))%list.

(** ** Facts about the string functions *)

Lemma containsByte_slash (c : ascii) :
  strings.containsByte slash c = Ascii.eqb c "/"%char.
Proof. unfold slash; simpl. apply orb_false_r. Qed.

(** Trimming a trimmed string changes nothing. *)
Lemma TrimLeft_idempotent (s cutset : string) :
  strings.TrimLeft (strings.TrimLeft s cutset) cutset = strings.TrimLeft s cutset.
Proof.
  induction s as [|c rest IH]; simpl.
  - reflexivity.
  - destruct (strings.containsByte cutset c) eqn:Hc.
    + exact IH.
    + simpl. rewrite Hc. reflexivity.
Qed.

(** What is left after trimming does not start with a byte of the cutset. *)
Lemma TrimLeft_startsOutside (s cutset : string) :
  strings.startsOutside cutset (strings.TrimLeft s cutset).
Proof.
  induction s as [|c rest IH]; simpl.
  - exact I.
  - destruct (strings.containsByte cutset c) eqn:Hc.
    + exact IH.
    + simpl. exact Hc.
Qed.

(** With the cutset ["/"], what is removed is a run of separators. *)
Lemma TrimLeft_slash_run (s : string) :
  exists n, s = strings.Repeat "/"%char n ++ strings.TrimLeft s slash.
Proof.
  induction s as [|c rest [n IH]].
  - exists 0. reflexivity.
  - cbn [strings.TrimLeft]. rewrite containsByte_slash.
    destruct (Ascii.eqb c "/"%char) eqn:Hc.
    + apply Ascii.eqb_eq in Hc. subst c.
      exists (S n). simpl. f_equal. exact IH.
    + exists 0. reflexivity.
Qed.

(** A run of separators is trimmed away entirely, whatever follows it. *)
Lemma TrimLeft_Repeat_slash (n : nat) (s : string) :
  strings.TrimLeft (strings.Repeat "/"%char n ++ s) slash = strings.TrimLeft s slash.
Proof.
  induction n as [|n IH]; simpl.
  - reflexivity.
  - exact IH.
Qed.

(** What is left after trimming is not a separator followed by something. *)
Lemma TrimLeft_slash_head (s tail : string) :
  strings.TrimLeft s slash <> String "/"%char tail.
Proof.
  induction s as [|c rest IH]; [discriminate|].
  cbn [strings.TrimLeft]. rewrite containsByte_slash.
  destruct (Ascii.eqb c "/"%char) eqn:Hc; [exact IH|].
  intros H. inversion H. subst c. discriminate Hc.
Qed.

(** A string that does not start with a separator is trimmed to itself. *)
Lemma TrimLeft_slash_fixed (s : string) :
  (forall tail, s <> String "/"%char tail) ->
  strings.TrimLeft s slash = s.
Proof.
  destruct s as [|c rest]; [reflexivity|]. intros H.
  cbn [strings.TrimLeft]. rewrite containsByte_slash.
  destruct (Ascii.eqb c "/"%char) eqn:Hc; [|reflexivity].
  apply Ascii.eqb_eq in Hc. subst c. exfalso. exact (H rest eq_refl).
Qed.

(** Trimming removes the whole run of separators in front of a string
    that does not start with one, and nothing else. *)
Lemma TrimLeft_slash_spec (n : nat) (rest : string) :
  (forall tail, rest <> String "/"%char tail) ->
  strings.TrimLeft (strings.Repeat "/"%char n ++ rest) slash = rest.
Proof.
  intros H. rewrite TrimLeft_Repeat_slash. apply TrimLeft_slash_fixed. exact H.
Qed.

(** [fmt.Sprintf("%d", n)] is the decimal numeral of [n]: reading it back
    gives [n]. *)
Lemma Sprintf_d_parses (n : Z) :
  option_map Z.of_int (NilZero.int_of_string (Sprintf_d n)) = Some n.
Proof.
  unfold Sprintf_d. rewrite NilZero.isi.
  - cbn. now rewrite DecimalZ.of_to.
  - destruct n; cbn; try discriminate. intros H. inversion H as [H1].
    revert H1. apply Unsigned.to_uint_nonnil.
  - destruct n; cbn; try discriminate. intros H. inversion H as [H1].
    revert H1. apply Unsigned.to_uint_nonnil.
Qed.

Lemma append_nil_r (s : string) : s ++ "" = s.
Proof. induction s as [|c rest IH]; simpl; [reflexivity | now rewrite IH]. Qed.

Lemma append_assoc (a b c : string) : (a ++ b) ++ c = a ++ (b ++ c).
Proof. induction a as [|x a IH]; simpl; [reflexivity | now rewrite IH]. Qed.

Lemma length_append (a b : string) :
  String.length (a ++ b) = String.length a + String.length b.
Proof. induction a as [|x a IH]; simpl; [reflexivity | now rewrite IH]. Qed.

Lemma substring_all (s : string) : substring 0 (String.length s) s = s.
Proof. induction s as [|c s IH]; simpl; [reflexivity | now rewrite IH]. Qed.

Lemma substring_skip (p s : string) (n : nat) :
  substring (String.length p) n (p ++ s) = substring 0 n s.
Proof. induction p as [|c p IH]; simpl; [reflexivity | exact IH]. Qed.

(** A string is its first [n] bytes followed by the rest. *)
Lemma substring_split (s : string) (n : nat) :
  n <= String.length s ->
  s = substring 0 n s ++ substring n (String.length s - n) s.
Proof.
  revert n. induction s as [|c s IH]; intros n Hn.
  - simpl in Hn. assert (n = 0) by lia. subst n. reflexivity.
  - destruct n as [|n].
    + simpl. now rewrite substring_all.
    + simpl in *. f_equal. apply IH. lia.
Qed.

(** [strings.HasSuffix] holds exactly of the strings that end in the
    suffix. *)
Lemma HasSuffix_iff (s suffix : string) :
  strings.HasSuffix s suffix = true <-> exists p, s = p ++ suffix.
Proof.
  unfold strings.HasSuffix. rewrite andb_true_iff, Nat.leb_le, String.eqb_eq.
  split.
  - intros [Hlen Hsub].
    exists (substring 0 (String.length s - String.length suffix) s).
    pose proof (@substring_split s (String.length s - String.length suffix)) as Hsplit.
    replace (String.length s - (String.length s - String.length suffix))
      with (String.length suffix) in Hsplit by lia.
    rewrite Hsub in Hsplit. apply Hsplit. lia.
  - intros [p ->]. rewrite length_append. split; [lia|].
    replace (String.length p + String.length suffix - String.length suffix)
      with (String.length p) by lia.
    rewrite substring_skip. apply substring_all.
Qed.

Lemma append_inj_last (a b : string) (c d : ascii) :
  a ++ String c "" = b ++ String d "" -> a = b /\ c = d.
Proof.
  revert b. induction a as [|x a IH]; intros [|y b] H; simpl in H.
  - inversion H. now split.
  - inversion H as [[Hx Hr]]. destruct b; discriminate.
  - inversion H as [[Hx Hr]]. destruct a; discriminate.
  - inversion H as [[Hx Hr]]. destruct (IH _ Hr) as [-> ->]. now split.
Qed.

(** A separator appended to a string that does not end in one makes it end
    in exactly one. *)
Lemma HasSuffix_one_slash (s : string) :
  strings.HasSuffix s slash = false ->
  strings.HasSuffix (s ++ slash) slash = true
  /\ strings.HasSuffix (s ++ slash) (slash ++ slash) = false.
Proof.
  intros Hs. split.
  - apply HasSuffix_iff. now exists s.
  - destruct (strings.HasSuffix (s ++ slash) (slash ++ slash)) eqn:H2; [|reflexivity].
    apply HasSuffix_iff in H2. destruct H2 as [p Hp].
    unfold slash in Hp. simpl in Hp.
    change (String "/" (String "/" "")) with ("/" ++ String "/"%char "") in Hp.
    rewrite <- append_assoc in Hp.
    apply append_inj_last in Hp. destruct Hp as [Hp _].
    assert (strings.HasSuffix s slash = true) as Habs
      by (apply HasSuffix_iff; now exists p).
    congruence.
Qed.

(** ** The runs of the handler *)

Lemma none_In {p : Event -> bool} {t : list Event} {e : Event} :
  none p t -> In e t -> p e = false.
Proof.
  unfold none. rewrite forallb_forall. intros H Hin.
  apply H in Hin. now apply negb_true_iff in Hin.
Qed.

Lemma none_app (p : Event -> bool) (t u : list Event) :
  none p (t ++ u) <-> none p t /\ none p u.
Proof. unfold none. rewrite forallb_app. apply andb_true_iff. Qed.

(** Line 36 panics when the engine's value is not an outgoing transfer:
    nothing has happened by then. *)
Lemma handler_not_outgoing (g : GlobalState) (filename : string) (rf : ReaderFrom) :
  isOutgoingTransfer rf = false ->
  exists msg, tftpReadHandler g filename rf = (nil, Panic msg).
Proof.
  intros Hrf. unfold tftpReadHandler, asOutgoingTransfer. rewrite Hrf.
  eexists. reflexivity.
Qed.

(** Lines 50-54: the request is refused. *)
Lemma handler_refused (g : GlobalState) (filename : string) (rf : ReaderFrom)
  (err : LibErr) :
  isOutgoingTransfer rf = true ->
  NewRequest_refuses "GET" (fetchURI g filename) = Some err ->
  tftpReadHandler g filename rf =
    ((EvLog ("INFO: New TFTP request (" ++ filename ++ ") from "
             ++ IP_String (addrIP (RemoteAddr rf)))
      :: EvNewRequest "GET" (fetchURI g filename)
      :: EvLog ("ERR: http request setup failed: " ++ LibErr_Error err)
      :: nil)%list,
     Return (Some (Lib err))).
Proof.
  intros Hrf Hreq. unfold tftpReadHandler, asOutgoingTransfer, NewRequest.
  rewrite Hrf. cbn. rewrite Hreq. reflexivity.
Qed.

(** Lines 56-61: the header fields and the credentials are put on the
    request, and what comes out is [outbound]. *)
Lemma decorate_run {R : Type} (g : GlobalState) (filename : string)
  (raddr : UDPAddr) :
  @decorate R g filename raddr (mkRequest "GET" (fetchURI g filename) nil)
  = ((EvHeaderAdd "X-TFTP-IP" (IP_String (addrIP raddr))
      :: EvHeaderAdd "X-TFTP-Port" (Sprintf_d (addrPort raddr))
      :: EvHeaderAdd "X-TFTP-File" filename
      :: (if authUsername g =? "" then nil
          else EvSetBasicAuth (authUsername g) (authPassword g) :: nil))%list,
     Next (outbound g filename raddr)).
Proof.
  unfold decorate, outbound, SetBasicAuth, Header_Add.
  destruct (authUsername g =? ""); reflexivity.
Qed.

(** Lines 55-62: the request is accepted, decorated and dispatched; the
    rest of the run is [respond] on what [Do] returns. *)
Lemma handler_dispatched (g : GlobalState) (filename : string) (rf : ReaderFrom) :
  isOutgoingTransfer rf = true ->
  NewRequest_refuses "GET" (fetchURI g filename) = None ->
  let req := outbound g filename (RemoteAddr rf) in
  tftpReadHandler g filename rf =
    ((preamble g filename (RemoteAddr rf)
      ++ EvDo req :: fst (respond rf (Do req)))%list,
     snd (respond rf (Do req))).
Proof.
  intros Hrf Hreq req. subst req.
  unfold tftpReadHandler, asOutgoingTransfer, NewRequest, preamble.
  rewrite Hrf. cbv zeta. cbn [bind ret emit Printf app].
  rewrite Hreq. cbn [bind ret emit Printf app].
  rewrite decorate_run. cbn [bind ret emit Printf app].
  destruct (respond rf (Do (outbound g filename (RemoteAddr rf)))) as [t f].
  reflexivity.
Qed.

(** Lines 69-75. *)
Lemma interpret_not_found (rf : ReaderFrom) (resp : Response) :
  StatusCode resp = http_StatusNotFound ->
  interpret rf resp =
    ((EvLog ("INFO: http FileNotFound response: " ++ Status resp) :: nil)%list,
     Return (Some (Errorf "File not found"))).
Proof.
  intros H. unfold interpret. rewrite H. reflexivity.
Qed.

Lemma interpret_other_status (rf : ReaderFrom) (resp : Response) :
  StatusCode resp <> http_StatusNotFound ->
  StatusCode resp <> http_StatusOK ->
  interpret rf resp =
    ((EvLog ("ERR: http request returned status " ++ Status resp) :: nil)%list,
     Return (Some (Errorf ("HTTP request error: " ++ Status resp)))).
Proof.
  intros H1 H2. unfold interpret.
  apply Z.eqb_neq in H1. apply Z.eqb_neq in H2. rewrite H1, H2. reflexivity.
Qed.

(** Lines 77-88. *)
Lemma interpret_ok (rf : ReaderFrom) (resp : Response) :
  isOutgoingTransfer rf = true ->
  StatusCode resp = http_StatusOK ->
  interpret rf resp =
    (((if (ContentLength resp >=? 0)%Z
       then EvSetSize (ContentLength resp) :: nil else nil)
      ++ EvReadFrom (respBody resp)
      :: match snd (ReadFrom rf (respBody resp)) with
         | Some err => EvLog ("ERR: ReadFrom failed: " ++ LibErr_Error err) :: nil
         | None => nil
         end)%list,
     Return (option_map Lib (snd (ReadFrom rf (respBody resp))))).
Proof.
  intros Hrf H. unfold interpret, transfer, asOutgoingTransfer.
  rewrite H, Hrf. cbn.
  destruct (ContentLength resp >=? 0)%Z;
    destruct (snd (ReadFrom rf (respBody resp))); reflexivity.
Qed.

(** After the response has arrived the handler touches the request no
    more: it logs, talks to the sink and closes the body. *)
Lemma respond_events (rf : ReaderFrom) (r : Response + LibErr) :
  none dispatchEvent (fst (respond rf r))
  /\ none attachEvent (fst (respond rf r))
  /\ (forall m u, ~ In (EvNewRequest m u) (fst (respond rf r))).
Proof.
  unfold respond, interpret, transfer, asOutgoingTransfer.
  destruct r as [resp|err]; cbn.
  - destruct (StatusCode resp =? http_StatusNotFound)%Z; cbn.
    { repeat split; intros m u [H|[H|[]]]; discriminate. }
    destruct (StatusCode resp =? http_StatusOK)%Z; cbn.
    2:{ repeat split; intros m u [H|[H|[]]]; discriminate. }
    destruct (ContentLength resp >=? 0)%Z; destruct (isOutgoingTransfer rf);
      destruct (snd (ReadFrom rf (respBody resp))); cbn;
      repeat split; intros m u Hin; cbn in Hin;
      repeat (destruct Hin as [Hin|Hin]; [discriminate|]); exact Hin.
  - repeat split. intros m u [H|[]]. discriminate.
Qed.

Lemma preamble_events (g : GlobalState) (filename : string) (raddr : UDPAddr) :
  none dispatchEvent (preamble g filename raddr)
  /\ none sinkEvent (preamble g filename raddr)
  /\ none closeEvent (preamble g filename raddr).
Proof.
  unfold preamble. destruct (authUsername g =? ""); repeat split.
Qed.

(** A request that was dispatched is the one built by lines 50-61, and to
    get there the handler was given an outgoing transfer and its target was
    accepted. *)
Lemma dispatched_inv (g : GlobalState) (filename : string) (rf : ReaderFrom)
  (req : Request) :
  In (EvDo req) (trace g filename rf) ->
  isOutgoingTransfer rf = true
  /\ NewRequest_refuses "GET" (fetchURI g filename) = None
  /\ req = outbound g filename (RemoteAddr rf).
Proof.
  unfold trace. intros Hin.
  destruct (isOutgoingTransfer rf) eqn:Hrf.
  2:{ destruct (handler_not_outgoing g filename rf Hrf) as [msg Hrun].
      rewrite Hrun in Hin. destruct Hin. }
  destruct (NewRequest_refuses "GET" (fetchURI g filename)) as [err|] eqn:Hreq.
  { rewrite (handler_refused g filename rf err Hrf Hreq) in Hin.
    cbn in Hin. destruct Hin as [H|[H|[H|[]]]]; discriminate. }
  repeat split.
  rewrite (handler_dispatched g filename rf Hrf Hreq) in Hin.
  cbv zeta in Hin.
  destruct (snd (respond rf (Do (outbound g filename (RemoteAddr rf)))))
    as [[]|r|msg];
    cbn [call fst] in Hin;
    apply in_app_or in Hin; destruct Hin as [Hin|[Hin|Hin]];
    try (apply (none_In (proj1 (preamble_events g filename (RemoteAddr rf)))) in Hin;
         cbn in Hin; discriminate);
    try (apply (none_In (proj1 (respond_events rf _))) in Hin;
         cbn in Hin; discriminate);
    inversion Hin; reflexivity.
Qed.

(** The run of the handler once the response is there. *)
Lemma handler_responded (g : GlobalState) (filename : string) (rf : ReaderFrom)
  (req : Request) (resp : Response) :
  In (EvDo req) (trace g filename rf) ->
  Do req = inl resp ->
  isOutgoingTransfer rf = true
  /\ req = outbound g filename (RemoteAddr rf)
  /\ tftpReadHandler g filename rf =
       ((preamble g filename (RemoteAddr rf)
         ++ EvDo req
         :: fst (interpret rf resp) ++ EvBodyClose (respBody resp) :: nil)%list,
        snd (interpret rf resp)).
Proof.
  intros Hin Hdo.
  destruct (dispatched_inv g filename rf req Hin) as (Hrf & Hreq & ->).
  repeat split; [exact Hrf|].
  rewrite (handler_dispatched g filename rf Hrf Hreq). cbv zeta.
  rewrite Hdo. reflexivity.
Qed.

(** An accepted request is dispatched. *)
Lemma dispatched_intro (g : GlobalState) (filename : string) (rf : ReaderFrom) :
  isOutgoingTransfer rf = true ->
  NewRequest_refuses "GET" (fetchURI g filename) = None ->
  In (EvDo (outbound g filename (RemoteAddr rf))) (trace g filename rf).
Proof.
  intros Hrf Hreq. unfold trace.
  rewrite (handler_dispatched g filename rf Hrf Hreq). cbv zeta.
  destruct (snd (respond rf (Do (outbound g filename (RemoteAddr rf)))))
    as [[]|r|msg]; cbn [call fst]; apply in_or_app; right; left; reflexivity.
Qed.

(** The three runs of the handler on a response: status 404, another
    status that is not 200, and status 200. *)
Lemma run_not_found (g : GlobalState) (filename : string) (rf : ReaderFrom)
  (req : Request) (resp : Response) :
  In (EvDo req) (trace g filename rf) ->
  Do req = inl resp ->
  StatusCode resp = http_StatusNotFound ->
  call (tftpReadHandler g filename rf) =
    ((preamble g filename (RemoteAddr rf)
      ++ EvDo req
      :: EvLog ("INFO: http FileNotFound response: " ++ Status resp)
      :: EvBodyClose (respBody resp) :: nil)%list,
     Returned (Some (Errorf "File not found"))).
Proof.
  intros Hin Hdo Hs.
  destruct (handler_responded g filename rf req resp Hin Hdo) as (_ & _ & ->).
  rewrite (interpret_not_found rf resp Hs). reflexivity.
Qed.

Lemma run_other_status (g : GlobalState) (filename : string) (rf : ReaderFrom)
  (req : Request) (resp : Response) :
  In (EvDo req) (trace g filename rf) ->
  Do req = inl resp ->
  StatusCode resp <> http_StatusNotFound ->
  StatusCode resp <> http_StatusOK ->
  call (tftpReadHandler g filename rf) =
    ((preamble g filename (RemoteAddr rf)
      ++ EvDo req
      :: EvLog ("ERR: http request returned status " ++ Status resp)
      :: EvBodyClose (respBody resp) :: nil)%list,
     Returned (Some (Errorf ("HTTP request error: " ++ Status resp)))).
Proof.
  intros Hin Hdo H1 H2.
  destruct (handler_responded g filename rf req resp Hin Hdo) as (_ & _ & ->).
  rewrite (interpret_other_status rf resp H1 H2). reflexivity.
Qed.

Lemma run_ok (g : GlobalState) (filename : string) (rf : ReaderFrom)
  (req : Request) (resp : Response) :
  In (EvDo req) (trace g filename rf) ->
  Do req = inl resp ->
  StatusCode resp = http_StatusOK ->
  call (tftpReadHandler g filename rf) =
    ((preamble g filename (RemoteAddr rf)
      ++ EvDo req
      :: ((if (ContentLength resp >=? 0)%Z
           then EvSetSize (ContentLength resp) :: nil else nil)
          ++ EvReadFrom (respBody resp)
          :: match snd (ReadFrom rf (respBody resp)) with
             | Some err =>
                 EvLog ("ERR: ReadFrom failed: " ++ LibErr_Error err) :: nil
             | None => nil
             end)
      ++ EvBodyClose (respBody resp) :: nil)%list,
     Returned (option_map Lib (snd (ReadFrom rf (respBody resp))))).
Proof.
  intros Hin Hdo Hs.
  destruct (handler_responded g filename rf req resp Hin Hdo) as (Hrf & _ & ->).
  rewrite (interpret_ok rf resp Hrf Hs). reflexivity.
Qed.

(** The run of the handler when the transport fails. *)
Lemma run_transport_failure (g : GlobalState) (filename : string)
  (rf : ReaderFrom) (req : Request) (err : LibErr) :
  In (EvDo req) (trace g filename rf) ->
  Do req = inr err ->
  call (tftpReadHandler g filename rf) =
    ((preamble g filename (RemoteAddr rf)
      ++ EvDo req
      :: EvLog ("ERR: http request failed: " ++ LibErr_Error err) :: nil)%list,
     Returned (Some (Lib err))).
Proof.
  intros Hin Hdo.
  destruct (dispatched_inv g filename rf req Hin) as (Hrf & Hreq & ->).
  rewrite (handler_dispatched g filename rf Hrf Hreq). cbv zeta.
  rewrite Hdo. reflexivity.
Qed.

(** The events of a run in which a request was dispatched. *)
Lemma trace_dispatched (g : GlobalState) (filename : string) (rf : ReaderFrom)
  (req : Request) :
  In (EvDo req) (trace g filename rf) ->
  trace g filename rf
  = (preamble g filename (RemoteAddr rf) ++ EvDo req :: fst (respond rf (Do req)))%list.
Proof.
  intros Hin.
  destruct (dispatched_inv g filename rf req Hin) as (Hrf & Hreq & ->).
  unfold trace. rewrite (handler_dispatched g filename rf Hrf Hreq). cbv zeta.
  destruct (snd (respond rf (Do (outbound g filename (RemoteAddr rf)))))
    as [[]|r|msg]; reflexivity.
Qed.

(** A request that was constructed was a GET for the composed target. *)
Lemma requested_inv (g : GlobalState) (filename : string) (rf : ReaderFrom)
  (m u : string) :
  In (EvNewRequest m u) (trace g filename rf) ->
  isOutgoingTransfer rf = true /\ m = "GET" /\ u = fetchURI g filename.
Proof.
  unfold trace. intros Hin.
  destruct (isOutgoingTransfer rf) eqn:Hrf.
  2:{ destruct (handler_not_outgoing g filename rf Hrf) as [msg Hrun].
      rewrite Hrun in Hin. destruct Hin. }
  split; [reflexivity|].
  destruct (NewRequest_refuses "GET" (fetchURI g filename)) as [err|] eqn:Hreq.
  { rewrite (handler_refused g filename rf err Hrf Hreq) in Hin.
    cbn in Hin. destruct Hin as [H|[H|[H|[]]]]; inversion H. now split. }
  rewrite (handler_dispatched g filename rf Hrf Hreq) in Hin.
  cbv zeta in Hin.
  destruct (snd (respond rf (Do (outbound g filename (RemoteAddr rf)))))
    as [[]|r|msg];
    cbn [call fst] in Hin;
    apply in_app_or in Hin; destruct Hin as [Hin|[Hin|Hin]];
    try discriminate;
    try (exfalso; exact (proj2 (proj2 (respond_events rf _)) m u Hin));
    unfold preamble in Hin; destruct (authUsername g =? ""); cbn in Hin;
    repeat (destruct Hin as [Hin|Hin]; [inversion Hin; now split|]);
    destruct Hin.
Qed.

(** ** Target composition *)

(** C1: with [appendPath] the handler fetches [httpBaseUrl] followed by the
    file name without its leading separators.  The stripping takes the
    whole run of separators away and nothing else: whenever the file name
    is [n] separators followed by a string that does not start with one,
    what is appended is that string; what is left never starts with a
    separator, and stripping again changes nothing.  Without [appendPath]
    the handler fetches [httpBaseUrl] itself, whatever the file name.
    Every request the handler constructs or dispatches is for that
    target. *)
Theorem fetch_target_composition (g : GlobalState) (filename : string) :
  (appendPath g = true ->
   fetchURI g filename = httpBaseUrl g ++ strings.TrimLeft filename slash)
  /\ (appendPath g = false ->
      fetchURI g filename = httpBaseUrl g
      /\ forall other, fetchURI g other = fetchURI g filename)
  /\ (exists n,
        filename = strings.Repeat "/"%char n ++ strings.TrimLeft filename slash)
  /\ (forall tail, strings.TrimLeft filename slash <> String "/"%char tail)
  /\ (forall n rest,
        filename = strings.Repeat "/"%char n ++ rest ->
        (forall tail, rest <> String "/"%char tail) ->
        strings.TrimLeft filename slash = rest
        /\ (appendPath g = true ->
            fetchURI g filename = httpBaseUrl g ++ rest))
  /\ strings.TrimLeft (strings.TrimLeft filename slash) slash
     = strings.TrimLeft filename slash
  /\ (forall rf m u,
        In (EvNewRequest m u) (trace g filename rf) ->
        m = "GET" /\ u = fetchURI g filename)
  /\ (forall rf req,
        In (EvDo req) (trace g filename rf) ->
        reqURL req = fetchURI g filename).
Proof.
  split; [|split].
  - intros Hap. unfold fetchURI. rewrite Hap. reflexivity.
  - intros Hap. unfold fetchURI. rewrite Hap.
    split; [reflexivity|]. intros other. reflexivity.
  - split; [apply TrimLeft_slash_run|].
    split; [apply TrimLeft_slash_head|].
    split.
    { intros n rest -> Hrest.
      pose proof (TrimLeft_slash_spec n rest Hrest) as Htrim.
      split; [exact Htrim|].
      intros Hap. unfold fetchURI. rewrite Hap, Htrim. reflexivity. }
    split; [apply TrimLeft_idempotent|].
    split.
    + intros rf m u Hin. apply (requested_inv g filename rf m u Hin).
    + intros rf req Hin.
      destruct (dispatched_inv g filename rf req Hin) as (_ & _ & ->).
      reflexivity.
Qed.

(** ** Response interpretation *)

(** The text of the error of a response that is neither 200 nor 404 is
    never the text of the not-found error. *)
Lemma origin_error_text (status : string) :
  Error (Errorf ("HTTP request error: " ++ status))
  <> Error (Errorf "File not found").
Proof. cbn. discriminate. Qed.

(** C2, as the code has it: once the fetch has produced a response, status
    404 makes the handler return the error "File not found"; any other
    status that is not 200 makes it return the error "HTTP request error: "
    followed by the status, whose text is never "File not found"; status
    200 makes it go on to the size declaration and to streaming, and the
    result is then that of [ReadFrom].  An error with the text "File not
    found" is either the one made for a 404 response or an error that a
    library returned with that very text, which the handler passes on
    unchanged. *)
Theorem status_interpretation (g : GlobalState) (filename : string)
  (rf : ReaderFrom) :
  (forall req resp,
     In (EvDo req) (trace g filename rf) ->
     Do req = inl resp ->
     (StatusCode resp = http_StatusNotFound ->
      outcome g filename rf = Returned (Some (Errorf "File not found")))
     /\ (StatusCode resp <> http_StatusNotFound ->
         StatusCode resp <> http_StatusOK ->
         outcome g filename rf
         = Returned (Some (Errorf ("HTTP request error: " ++ Status resp)))
         /\ Error (Errorf ("HTTP request error: " ++ Status resp))
            <> Error (Errorf "File not found"))
     /\ (StatusCode resp = http_StatusOK ->
         In (EvReadFrom (respBody resp)) (trace g filename rf)
         /\ ((0 <= ContentLength resp)%Z ->
             In (EvSetSize (ContentLength resp)) (trace g filename rf))
         /\ outcome g filename rf
            = Returned (option_map Lib (snd (ReadFrom rf (respBody resp))))))
  /\ (forall e,
        outcome g filename rf = Returned (Some e) ->
        Error e = "File not found" ->
        (e = Errorf "File not found"
         /\ exists req resp,
              In (EvDo req) (trace g filename rf)
              /\ Do req = inl resp
              /\ StatusCode resp = http_StatusNotFound)
        \/ (exists err, e = Lib err /\ LibErr_Error err = "File not found")).
Proof.
  split.
  - intros req resp Hin Hdo. unfold outcome, trace.
    split; [|split].
    + intros Hs. now rewrite (run_not_found g filename rf req resp Hin Hdo Hs).
    + intros H1 H2.
      rewrite (run_other_status g filename rf req resp Hin Hdo H1 H2).
      split; [reflexivity | apply origin_error_text].
    + intros Hs. rewrite (run_ok g filename rf req resp Hin Hdo Hs).
      cbn [fst snd]. split; [|split; [|reflexivity]].
      * apply in_or_app. right. right. apply in_or_app. left.
        apply in_or_app. right. left. reflexivity.
      * intros Hlen.
        assert ((ContentLength resp >=? 0)%Z = true) as -> by (apply Z.geb_le; lia).
        apply in_or_app. right. right. left. reflexivity.
  - intros e Hout Htext. unfold outcome in Hout.
    destruct (isOutgoingTransfer rf) eqn:Hrf.
    2:{ destruct (handler_not_outgoing g filename rf Hrf) as [msg Hrun].
        rewrite Hrun in Hout. discriminate. }
    destruct (NewRequest_refuses "GET" (fetchURI g filename)) as [err|] eqn:Hreq.
    { rewrite (handler_refused g filename rf err Hrf Hreq) in Hout.
      inversion Hout; subst e. right. exists err. split; [reflexivity | exact Htext]. }
    pose proof (dispatched_intro g filename rf Hrf Hreq) as Hin.
    destruct (Do (outbound g filename (RemoteAddr rf))) as [resp|err] eqn:Hdo.
    2:{ rewrite (run_transport_failure g filename rf _ err Hin Hdo) in Hout.
        inversion Hout; subst e. right. exists err.
        split; [reflexivity | exact Htext]. }
    destruct (Z.eq_dec (StatusCode resp) http_StatusNotFound) as [Hs|Hs].
    { rewrite (run_not_found g filename rf _ resp Hin Hdo Hs) in Hout.
      inversion Hout; subst e. left. split; [reflexivity|].
      exists (outbound g filename (RemoteAddr rf)), resp.
      repeat split; assumption. }
    destruct (Z.eq_dec (StatusCode resp) http_StatusOK) as [Hk|Hk].
    + rewrite (run_ok g filename rf _ resp Hin Hdo Hk) in Hout.
      cbn [snd] in Hout.
      destruct (snd (ReadFrom rf (respBody resp))) as [err|]; [|discriminate].
      inversion Hout; subst e. right. exists err.
      split; [reflexivity | exact Htext].
    + rewrite (run_other_status g filename rf _ resp Hin Hdo Hs Hk) in Hout.
      inversion Hout; subst e. exfalso. exact (origin_error_text _ Htext).
Qed.

(** ** Size hint and streaming *)

(** C3: on a 200 response with a content length that is not negative, the
    handler declares exactly that length to the sink and the very next
    thing it does is to hand the body over; the sink sees nothing before
    the declaration and nothing after the delivery.  With a negative
    content length the sink sees the delivery only, and the result of the
    handler is the result of the delivery: no error when [ReadFrom]
    reports none. *)
Theorem size_hint_precedes_bytes (g : GlobalState) (filename : string)
  (rf : ReaderFrom) (req : Request) (resp : Response) :
  In (EvDo req) (trace g filename rf) ->
  Do req = inl resp ->
  StatusCode resp = http_StatusOK ->
  ((0 <= ContentLength resp)%Z ->
   exists pre post,
     trace g filename rf
     = (pre ++ EvSetSize (ContentLength resp)
            :: EvReadFrom (respBody resp) :: post)%list
     /\ none sinkEvent pre /\ none sinkEvent post)
  /\ ((ContentLength resp < 0)%Z ->
      (exists pre post,
         trace g filename rf = (pre ++ EvReadFrom (respBody resp) :: post)%list
         /\ none sinkEvent pre /\ none sinkEvent post)
      /\ outcome g filename rf
         = Returned (option_map Lib (snd (ReadFrom rf (respBody resp))))
      /\ (snd (ReadFrom rf (respBody resp)) = None ->
          outcome g filename rf = Returned None)).
Proof.
  intros Hin Hdo Hs. unfold trace, outcome.
  rewrite (run_ok g filename rf req resp Hin Hdo Hs). cbn [fst snd].
  pose proof (preamble_events g filename (RemoteAddr rf)) as (_ & Hpre & _).
  split.
  - intros Hlen.
    assert ((ContentLength resp >=? 0)%Z = true) as -> by (apply Z.geb_le; lia).
    exists (preamble g filename (RemoteAddr rf) ++ EvDo req :: nil)%list.
    exists (match snd (ReadFrom rf (respBody resp)) with
            | Some err =>
                EvLog ("ERR: ReadFrom failed: " ++ LibErr_Error err) :: nil
            | None => nil
            end ++ EvBodyClose (respBody resp) :: nil)%list.
    split.
    + rewrite <- !app_assoc. reflexivity.
    + split.
      * apply none_app. split; [exact Hpre | reflexivity].
      * destruct (snd (ReadFrom rf (respBody resp))); reflexivity.
  - intros Hlen.
    assert ((ContentLength resp >=? 0)%Z = false) as ->.
    { destruct (ContentLength resp >=? 0)%Z eqn:E; [|reflexivity].
      apply Z.geb_le in E. lia. }
    split; [|split].
    + exists (preamble g filename (RemoteAddr rf) ++ EvDo req :: nil)%list.
      exists (match snd (ReadFrom rf (respBody resp)) with
              | Some err =>
                  EvLog ("ERR: ReadFrom failed: " ++ LibErr_Error err) :: nil
              | None => nil
              end ++ EvBodyClose (respBody resp) :: nil)%list.
      split.
      * rewrite <- !app_assoc. reflexivity.
      * split.
        -- apply none_app. split; [exact Hpre | reflexivity].
        -- destruct (snd (ReadFrom rf (respBody resp))); reflexivity.
    + reflexivity.
    + intros ->. reflexivity.
Qed.

(** ** Release of the response *)

(** C7: once [Do] has produced a response, the handler returns, and the
    last thing that happens is the closing of the body of that response;
    nothing was closed before.  This covers the not-found return, the
    other status return, the failed transfer and the completed one. *)
Theorem response_body_closed (g : GlobalState) (filename : string)
  (rf : ReaderFrom) (req : Request) (resp : Response) :
  In (EvDo req) (trace g filename rf) ->
  Do req = inl resp ->
  exists pre r,
    call (tftpReadHandler g filename rf)
    = ((pre ++ EvBodyClose (respBody resp) :: nil)%list, Returned r)
    /\ none closeEvent pre.
Proof.
  intros Hin Hdo.
  pose proof (preamble_events g filename (RemoteAddr rf)) as (_ & _ & Hpre).
  destruct (Z.eq_dec (StatusCode resp) http_StatusNotFound) as [Hs|Hs].
  { rewrite (run_not_found g filename rf req resp Hin Hdo Hs).
    exists (preamble g filename (RemoteAddr rf)
            ++ EvDo req
            :: EvLog ("INFO: http FileNotFound response: " ++ Status resp)
            :: nil)%list.
    eexists. split.
    - rewrite <- app_assoc. reflexivity.
    - apply none_app. split; [exact Hpre | reflexivity]. }
  destruct (Z.eq_dec (StatusCode resp) http_StatusOK) as [Hk|Hk].
  - rewrite (run_ok g filename rf req resp Hin Hdo Hk).
    eexists. eexists. split.
    + rewrite app_comm_cons, app_assoc. reflexivity.
    + apply none_app. split; [exact Hpre|].
      destruct (ContentLength resp >=? 0)%Z;
        destruct (snd (ReadFrom rf (respBody resp))); reflexivity.
  - rewrite (run_other_status g filename rf req resp Hin Hdo Hs Hk).
    exists (preamble g filename (RemoteAddr rf)
            ++ EvDo req
            :: EvLog ("ERR: http request returned status " ++ Status resp)
            :: nil)%list.
    eexists. split.
    + rewrite <- app_assoc. reflexivity.
    + apply none_app. split; [exact Hpre | reflexivity].
Qed.

(** ** Error outcomes and the sink *)

(** C8: a response whose status is not 200, 404 included, makes the
    handler return an error, and in that run no size is declared and no
    body is handed to the sink. *)
Theorem error_status_leaves_sink_untouched (g : GlobalState)
  (filename : string) (rf : ReaderFrom) (req : Request) (resp : Response) :
  In (EvDo req) (trace g filename rf) ->
  Do req = inl resp ->
  StatusCode resp <> http_StatusOK ->
  (exists e, outcome g filename rf = Returned (Some e))
  /\ none sinkEvent (trace g filename rf).
Proof.
  intros Hin Hdo Hk. unfold outcome, trace.
  pose proof (preamble_events g filename (RemoteAddr rf)) as (_ & Hpre & _).
  destruct (Z.eq_dec (StatusCode resp) http_StatusNotFound) as [Hs|Hs].
  - rewrite (run_not_found g filename rf req resp Hin Hdo Hs). cbn [fst snd].
    split; [eexists; reflexivity|].
    apply none_app. split; [exact Hpre | reflexivity].
  - rewrite (run_other_status g filename rf req resp Hin Hdo Hs Hk). cbn [fst snd].
    split; [eexists; reflexivity|].
    apply none_app. split; [exact Hpre | reflexivity].
Qed.

(** C9: when [http.NewRequest] refuses the composed target, the handler
    returns that very error; it has logged twice and done nothing else: no
    header was added, no credentials were set, no fetch was dispatched,
    and the sink received neither a size nor a body. *)
Theorem request_setup_failure (g : GlobalState) (filename : string)
  (rf : ReaderFrom) (m u : string) (err : LibErr) :
  In (EvNewRequest m u) (trace g filename rf) ->
  NewRequest_refuses m u = Some err ->
  outcome g filename rf = Returned (Some (Lib err))
  /\ trace g filename rf
     = (EvLog ("INFO: New TFTP request (" ++ filename ++ ") from "
               ++ IP_String (addrIP (RemoteAddr rf)))
        :: EvNewRequest m u
        :: EvLog ("ERR: http request setup failed: " ++ LibErr_Error err)
        :: nil)%list
  /\ none dispatchEvent (trace g filename rf)
  /\ none attachEvent (trace g filename rf)
  /\ none sinkEvent (trace g filename rf).
Proof.
  intros Hin Hreq.
  destruct (requested_inv g filename rf m u Hin) as (Hrf & -> & ->).
  unfold outcome, trace.
  rewrite (handler_refused g filename rf err Hrf Hreq).
  repeat split.
Qed.

(** ** Request metadata and credentials *)

(** C6: the header of a request that is dispatched holds, under the
    canonical keys [X-Tftp-Ip], [X-Tftp-Port] and [X-Tftp-File], one value
    each: the peer's IP, the peer's port as a decimal numeral (reading it
    back gives the port), and the file name as it was received.  With a
    configured user name that is not empty the handler has called
    [SetBasicAuth] with the user name and the password, empty or not, and
    the header holds the basic credentials made of them under
    [Authorization]; with an empty user name it has not called it and the
    header holds no [Authorization].  The header holds nothing else.  A
    request that is accepted is dispatched. *)
Theorem outbound_request_metadata (g : GlobalState) (filename : string)
  (rf : ReaderFrom) :
  (forall req,
     In (EvDo req) (trace g filename rf) ->
     http.values (Header req) "X-Tftp-Ip"
     = (IP_String (addrIP (RemoteAddr rf)) :: nil)%list
     /\ http.values (Header req) "X-Tftp-Port"
        = (Sprintf_d (addrPort (RemoteAddr rf)) :: nil)%list
     /\ option_map Z.of_int
          (NilZero.int_of_string (http.Get (Header req) "X-TFTP-Port"))
        = Some (addrPort (RemoteAddr rf))
     /\ http.values (Header req) "X-Tftp-File" = (filename :: nil)%list
     /\ http.Get (Header req) "X-TFTP-File" = filename
     /\ (authUsername g <> "" ->
         http.values (Header req) "Authorization"
         = (("Basic " ++ base64.EncodeToString
                           (authUsername g ++ ":" ++ authPassword g))%string
            :: nil)%list
         /\ In (EvSetBasicAuth (authUsername g) (authPassword g))
              (trace g filename rf))
     /\ (authUsername g = "" ->
         http.values (Header req) "Authorization" = nil
         /\ forall user pass, ~ In (EvSetBasicAuth user pass) (trace g filename rf))
     /\ (forall key,
           key <> "X-Tftp-Ip" -> key <> "X-Tftp-Port" ->
           key <> "X-Tftp-File" -> key <> "Authorization" ->
           http.values (Header req) key = nil))
  /\ (isOutgoingTransfer rf = true ->
      NewRequest_refuses "GET" (fetchURI g filename) = None ->
      exists req, In (EvDo req) (trace g filename rf)).
Proof.
  split.
  - intros req Hin.
    rewrite (trace_dispatched g filename rf req Hin).
    destruct (dispatched_inv g filename rf req Hin) as (_ & _ & ->).
    unfold outbound, preamble; cbn [Header].
    split; [reflexivity|]. split; [reflexivity|].
    split; [exact (Sprintf_d_parses (addrPort (RemoteAddr rf)))|].
    split; [reflexivity|]. split; [reflexivity|].
    split; [|split].
    + intros Hu. apply String.eqb_neq in Hu. rewrite Hu.
      split; [reflexivity|].
      apply in_or_app. left. cbn. do 6 right. left. reflexivity.
    + intros Hu. rewrite Hu. cbn [String.eqb].
      split; [reflexivity|].
      intros user pass Hbad. apply in_app_or in Hbad.
      destruct Hbad as [Hbad|[Hbad|Hbad]].
      * cbn in Hbad. repeat (destruct Hbad as [Hbad|Hbad]; [discriminate|]).
        exact Hbad.
      * discriminate.
      * apply (none_In (proj1 (proj2 (respond_events rf _)))) in Hbad.
        discriminate.
    + intros key H1 H2 H3 H4.
      apply not_eq_sym, String.eqb_neq in H1, H2, H3, H4.
      destruct (authUsername g =? ""); cbn [http.values];
        rewrite ?H1, ?H2, ?H3, ?H4; reflexivity.
  - intros Hrf Hreq. eexists. apply (dispatched_intro g filename rf Hrf Hreq).
Qed.

(** ** The base address *)

Lemma parse_refused (baseUrl : string) (ap : bool) (err : LibErr) :
  ParseRequestURI baseUrl = inr err ->
  call (parseBaseURL baseUrl ap)
  = ((EvLog ("FATAL: invalid base URL: " ++ LibErr_Error err ++ LF) :: nil)%list,
     Panicked ("FATAL: invalid base URL: " ++ LibErr_Error err ++ LF)).
Proof. intros H. unfold parseBaseURL. rewrite H. reflexivity. Qed.

Lemma parse_no_scheme (baseUrl : string) (ap : bool) (u : URL) :
  ParseRequestURI baseUrl = inl u ->
  Scheme u = "" ->
  call (parseBaseURL baseUrl ap)
  = ((EvLog ("FATAL: invalid base URL: No scheme found." ++ LF) :: nil)%list,
     Panicked ("FATAL: invalid base URL: No scheme found." ++ LF)).
Proof. intros H Hs. unfold parseBaseURL. rewrite H, Hs. reflexivity. Qed.

Lemma parse_no_host (baseUrl : string) (ap : bool) (u : URL) :
  ParseRequestURI baseUrl = inl u ->
  Scheme u <> "" ->
  Host u = "" ->
  call (parseBaseURL baseUrl ap)
  = ((EvLog ("FATAL: invalid base URL: No host found." ++ LF) :: nil)%list,
     Panicked ("FATAL: invalid base URL: No host found." ++ LF)).
Proof.
  intros H Hs Hh. unfold parseBaseURL. rewrite H, Hh.
  apply String.eqb_neq in Hs. rewrite Hs. reflexivity.
Qed.

Lemma parse_accepted (baseUrl : string) (ap : bool) (u : URL) :
  ParseRequestURI baseUrl = inl u ->
  Scheme u <> "" ->
  Host u <> "" ->
  call (parseBaseURL baseUrl ap)
  = (nil,
     Returned (if ap && negb (strings.HasSuffix (URL_String u) slash)
               then URL_String u ++ slash else URL_String u)).
Proof.
  intros H Hs Hh. unfold parseBaseURL. rewrite H.
  apply String.eqb_neq in Hs. apply String.eqb_neq in Hh. rewrite Hs, Hh.
  cbn. destruct (ap && negb (strings.HasSuffix (URL_String u) slash));
    reflexivity.
Qed.

(** A panic of [parseBaseURL] is a panic of [main], before anything else
    has happened. *)
Lemma main_panics_with_parse (fl : Flags) (t : list Event) (msg : string) :
  call (parseBaseURL (flag_http_base_url fl) (flag_http_append_path fl))
  = (t, Panicked msg) ->
  call (main fl) = (t, Panicked msg).
Proof.
  intros H. unfold main, configure, invoke. rewrite H. reflexivity.
Qed.

(** After [parseBaseURL] has returned, [main] starts the server. *)
Lemma main_serves_after_parse (fl : Flags) (base : string) :
  call (parseBaseURL (flag_http_base_url fl) (flag_http_append_path fl))
  = (nil, Returned base) ->
  exists rest r,
    call (main fl)
    = ((EvNewServer
        :: EvSetTimeout (flag_tftp_timeout fl)
        :: EvListenAndServe (flag_tftp_bind_address fl) :: rest)%list, r).
Proof.
  intros H. unfold main, configure, invoke. rewrite H. cbn.
  repeat match goal with
  | |- context [ListenAndServe2 ?a] =>
      destruct (ListenAndServe2 a) as [[|] [e|]]; cbn
  | |- context [SdNotify ?a ?b] =>
      destruct (SdNotify a b) as [[|] [e'|]]; cbn
  end; eexists; eexists; reflexivity.
Qed.

(** The start of the process fails on the base address: [parseBaseURL]
    logs [msg] and panics with it, and so does [main], which has done
    nothing else: no server was created and none listens. *)
Definition fatalStartup (fl : Flags) (msg : string) : Prop :=
  call (parseBaseURL (flag_http_base_url fl) (flag_http_append_path fl))
  = ((EvLog msg :: nil)%list, Panicked msg)
  /\ call (main fl) = ((EvLog msg :: nil)%list, Panicked msg)
  /\ exists detail, msg = "FATAL: invalid base URL: " ++ detail.

(** C4: [parseBaseURL] returns an address exactly when
    [url.ParseRequestURI] accepts the string and the URL it yields has a
    scheme and a host.  When the string is refused, or the scheme is
    empty, or the host is empty, it panics with a message that starts with
    "FATAL: invalid base URL: ", and [main] panics with it before the
    server is created.  When it returns, [main] goes on to create the
    server and to listen. *)
Theorem base_url_validation (fl : Flags) :
  ((exists base,
      snd (call (parseBaseURL (flag_http_base_url fl) (flag_http_append_path fl)))
      = Returned base)
   <-> (exists u,
          ParseRequestURI (flag_http_base_url fl) = inl u
          /\ Scheme u <> "" /\ Host u <> ""))
  /\ (forall err,
        ParseRequestURI (flag_http_base_url fl) = inr err ->
        fatalStartup fl ("FATAL: invalid base URL: " ++ LibErr_Error err ++ LF))
  /\ (forall u,
        ParseRequestURI (flag_http_base_url fl) = inl u ->
        Scheme u = "" ->
        fatalStartup fl ("FATAL: invalid base URL: No scheme found." ++ LF))
  /\ (forall u,
        ParseRequestURI (flag_http_base_url fl) = inl u ->
        Host u = "" ->
        exists msg, fatalStartup fl msg)
  /\ ((exists base,
         snd (call (parseBaseURL (flag_http_base_url fl) (flag_http_append_path fl)))
         = Returned base) ->
      exists rest r,
        call (main fl)
        = ((EvNewServer
            :: EvSetTimeout (flag_tftp_timeout fl)
            :: EvListenAndServe (flag_tftp_bind_address fl) :: rest)%list, r)).
Proof.
  assert (Hrefused : forall err,
            ParseRequestURI (flag_http_base_url fl) = inr err ->
            fatalStartup fl ("FATAL: invalid base URL: " ++ LibErr_Error err ++ LF)).
  { intros err H. unfold fatalStartup.
    pose proof (parse_refused (flag_http_base_url fl) (flag_http_append_path fl) err H)
      as Hp.
    split; [exact Hp|]. split; [exact (main_panics_with_parse fl _ _ Hp) | eexists; reflexivity]. }
  assert (Hscheme : forall u,
            ParseRequestURI (flag_http_base_url fl) = inl u ->
            Scheme u = "" ->
            fatalStartup fl ("FATAL: invalid base URL: No scheme found." ++ LF)).
  { intros u H Hs. unfold fatalStartup.
    pose proof (parse_no_scheme (flag_http_base_url fl) (flag_http_append_path fl) u H Hs)
      as Hp.
    split; [exact Hp|]. split; [exact (main_panics_with_parse fl _ _ Hp) | eexists; reflexivity]. }
  assert (Hhost : forall u,
            ParseRequestURI (flag_http_base_url fl) = inl u ->
            Host u = "" ->
            exists msg, fatalStartup fl msg).
  { intros u H Hh. destruct (string_dec (Scheme u) "") as [Hs|Hs].
    - eexists. exact (Hscheme u H Hs).
    - eexists. unfold fatalStartup.
      pose proof (parse_no_host (flag_http_base_url fl) (flag_http_append_path fl)
                    u H Hs Hh) as Hp.
      split; [exact Hp|]. split; [exact (main_panics_with_parse fl _ _ Hp) | eexists; reflexivity]. }
  assert (Hiff : (exists base,
      snd (call (parseBaseURL (flag_http_base_url fl) (flag_http_append_path fl)))
      = Returned base)
   <-> (exists u,
          ParseRequestURI (flag_http_base_url fl) = inl u
          /\ Scheme u <> "" /\ Host u <> "")).
  { split.
    - intros [base Hret].
      destruct (ParseRequestURI (flag_http_base_url fl)) as [u|err] eqn:H.
      + exists u. split; [reflexivity|]. split; intros Hbad.
        * destruct (Hscheme u eq_refl Hbad) as (Hp & _). rewrite Hp in Hret.
          discriminate.
        * destruct (Hhost u eq_refl Hbad) as (msg & Hp & _). rewrite Hp in Hret.
          discriminate.
      + destruct (Hrefused err eq_refl) as (Hp & _). rewrite Hp in Hret.
        discriminate.
    - intros (u & H & Hs & Hh).
      rewrite (parse_accepted (flag_http_base_url fl) (flag_http_append_path fl)
                 u H Hs Hh).
      eexists. reflexivity. }
  split; [exact Hiff|]. split; [exact Hrefused|]. split; [exact Hscheme|].
  split; [exact Hhost|].
  intros Hret. apply Hiff in Hret. destruct Hret as (u & H & Hs & Hh).
  eapply main_serves_after_parse.
  apply (parse_accepted (flag_http_base_url fl) (flag_http_append_path fl) u H Hs Hh).
Qed.

(** C5: for a base address that is accepted, with [appendPath] and a
    normalised form [u.String()] that does not end in a separator,
    [parseBaseURL] returns that form followed by one separator, which ends
    in one separator and not in two; with [appendPath] and a form that ends
    in a separator, and without [appendPath], it returns the form as it
    is. *)
Theorem base_url_normalisation (baseUrl : string) (u : URL) :
  ParseRequestURI baseUrl = inl u ->
  Scheme u <> "" ->
  Host u <> "" ->
  (strings.HasSuffix (URL_String u) slash = false ->
   snd (call (parseBaseURL baseUrl true)) = Returned (URL_String u ++ slash)
   /\ strings.HasSuffix (URL_String u ++ slash) slash = true
   /\ strings.HasSuffix (URL_String u ++ slash) (slash ++ slash) = false)
  /\ (strings.HasSuffix (URL_String u) slash = true ->
      snd (call (parseBaseURL baseUrl true)) = Returned (URL_String u))
  /\ snd (call (parseBaseURL baseUrl false)) = Returned (URL_String u).
Proof.
  intros H Hs Hh.
  rewrite !(parse_accepted baseUrl _ u H Hs Hh). cbn [andb snd].
  split; [|split].
  - intros Hsuf. rewrite Hsuf. split; [reflexivity|].
    apply HasSuffix_one_slash. exact Hsuf.
  - intros Hsuf. rewrite Hsuf. reflexivity.
  - reflexivity.
Qed.

(** ** File names made of separators *)


(** ** The shapes of a run

    Every invocation of the handler is one of six runs: it panics on its
    first line, the request is refused, the transport fails, the origin
    answers 404, it answers another status that is not 200, or it answers
    200.  Each run comes with its events and its result. *)

Inductive Run (g : GlobalState) (filename : string) (rf : ReaderFrom) : Prop :=
| RunPanicked (msg : string)
    (Hrf : isOutgoingTransfer rf = false)
    (Hrun : call (tftpReadHandler g filename rf) = (nil, Panicked msg))
| RunRefused (err : LibErr)
    (Hrf : isOutgoingTransfer rf = true)
    (Hreq : NewRequest_refuses "GET" (fetchURI g filename) = Some err)
    (Hrun : call (tftpReadHandler g filename rf)
            = ((EvLog ("INFO: New TFTP request (" ++ filename ++ ") from "
                       ++ IP_String (addrIP (RemoteAddr rf)))
                :: EvNewRequest "GET" (fetchURI g filename)
                :: EvLog ("ERR: http request setup failed: " ++ LibErr_Error err)
                :: nil)%list,
               Returned (Some (Lib err))))
| RunTransportFailure (err : LibErr)
    (Hin : In (EvDo (outbound g filename (RemoteAddr rf))) (trace g filename rf))
    (Hdo : Do (outbound g filename (RemoteAddr rf)) = inr err)
    (Hrun : call (tftpReadHandler g filename rf)
            = ((preamble g filename (RemoteAddr rf)
                ++ EvDo (outbound g filename (RemoteAddr rf))
                :: EvLog ("ERR: http request failed: " ++ LibErr_Error err)
                :: nil)%list,
               Returned (Some (Lib err))))
| RunNotFound (resp : Response)
    (Hin : In (EvDo (outbound g filename (RemoteAddr rf))) (trace g filename rf))
    (Hdo : Do (outbound g filename (RemoteAddr rf)) = inl resp)
    (Hs : StatusCode resp = http_StatusNotFound)
    (Hrun : call (tftpReadHandler g filename rf)
            = ((preamble g filename (RemoteAddr rf)
                ++ EvDo (outbound g filename (RemoteAddr rf))
                :: EvLog ("INFO: http FileNotFound response: " ++ Status resp)
                :: EvBodyClose (respBody resp) :: nil)%list,
               Returned (Some (Errorf "File not found"))))
| RunOtherStatus (resp : Response)
    (Hin : In (EvDo (outbound g filename (RemoteAddr rf))) (trace g filename rf))
    (Hdo : Do (outbound g filename (RemoteAddr rf)) = inl resp)
    (Hs : StatusCode resp <> http_StatusNotFound)
    (Hk : StatusCode resp <> http_StatusOK)
    (Hrun : call (tftpReadHandler g filename rf)
            = ((preamble g filename (RemoteAddr rf)
                ++ EvDo (outbound g filename (RemoteAddr rf))
                :: EvLog ("ERR: http request returned status " ++ Status resp)
                :: EvBodyClose (respBody resp) :: nil)%list,
               Returned (Some (Errorf ("HTTP request error: " ++ Status resp)))))
| RunOk (resp : Response)
    (Hin : In (EvDo (outbound g filename (RemoteAddr rf))) (trace g filename rf))
    (Hdo : Do (outbound g filename (RemoteAddr rf)) = inl resp)
    (Hk : StatusCode resp = http_StatusOK)
    (Hrun : call (tftpReadHandler g filename rf)
            = ((preamble g filename (RemoteAddr rf)
                ++ EvDo (outbound g filename (RemoteAddr rf))
                :: ((if (ContentLength resp >=? 0)%Z
                     then EvSetSize (ContentLength resp) :: nil else nil)
                    ++ EvReadFrom (respBody resp)
                    :: match snd (ReadFrom rf (respBody resp)) with
                       | Some err =>
                           EvLog ("ERR: ReadFrom failed: " ++ LibErr_Error err)
                           :: nil
                       | None => nil
                       end)
                ++ EvBodyClose (respBody resp) :: nil)%list,
               Returned (option_map Lib (snd (ReadFrom rf (respBody resp)))))).

Lemma run_shape (g : GlobalState) (filename : string) (rf : ReaderFrom) :
  Run g filename rf.
Proof.
  destruct (isOutgoingTransfer rf) eqn:Hrf.
  2:{ destruct (handler_not_outgoing g filename rf Hrf) as [msg Hrun].
      apply RunPanicked with msg; [exact Hrf | now rewrite Hrun]. }
  destruct (NewRequest_refuses "GET" (fetchURI g filename)) as [err|] eqn:Hreq.
  { apply RunRefused with err; try assumption.
    now rewrite (handler_refused g filename rf err Hrf Hreq). }
  pose proof (dispatched_intro g filename rf Hrf Hreq) as Hin.
  destruct (Do (outbound g filename (RemoteAddr rf))) as [resp|err] eqn:Hdo.
  - destruct (Z.eq_dec (StatusCode resp) http_StatusNotFound) as [Hs|Hs].
    { apply RunNotFound with resp; try assumption.
      exact (run_not_found g filename rf _ resp Hin Hdo Hs). }
    destruct (Z.eq_dec (StatusCode resp) http_StatusOK) as [Hk|Hk].
    + apply RunOk with resp; try assumption.
      exact (run_ok g filename rf _ resp Hin Hdo Hk).
    + apply RunOtherStatus with resp; try assumption.
      exact (run_other_status g filename rf _ resp Hin Hdo Hs Hk).
  - apply RunTransportFailure with err; try assumption.
    exact (run_transport_failure g filename rf _ err Hin Hdo).
Qed.

(** ** Further properties of the handler *)

(** The events that construct a request, declare a size, hand a body over. *)
Definition requestEvent (e : Event) : bool :=
  match e with
  | EvNewRequest _ _ => true
  | _ => false
  end.

Definition sizeEvent (e : Event) : bool :=
  match e with
  | EvSetSize _ => true
  | _ => false
  end.

Definition readEvent (e : Event) : bool :=
  match e with
  | EvReadFrom _ => true
  | _ => false
  end.

(** How many events of [t] satisfy [p]. *)
Definition count (p : Event -> bool) (t : list Event) : nat :=
  List.length (filter p t).

(** X1: when the transport fails, the handler returns the transport's
    error and logs it; the dispatch was its last call into a library: the
    sink is not touched and there is no body to close. *)
Theorem transport_failure_aborts (g : GlobalState) (filename : string)
  (rf : ReaderFrom) (req : Request) (err : LibErr) :
  In (EvDo req) (trace g filename rf) ->
  Do req = inr err ->
  outcome g filename rf = Returned (Some (Lib err))
  /\ (exists pre,
        trace g filename rf
        = (pre ++ EvDo req
               :: EvLog ("ERR: http request failed: " ++ LibErr_Error err)
               :: nil)%list)
  /\ none sinkEvent (trace g filename rf)
  /\ none closeEvent (trace g filename rf).
Proof.
  intros Hin Hdo. unfold outcome, trace.
  rewrite (run_transport_failure g filename rf req err Hin Hdo). cbn [fst snd].
  pose proof (preamble_events g filename (RemoteAddr rf)) as (_ & Hsink & Hclose).
  split; [reflexivity|]. split; [eexists; reflexivity|].
  split; apply none_app; (split; [assumption | reflexivity]).
Qed.

(** X2: the handler returns without error in one case only: a request was
    dispatched, the origin answered 200, and [ReadFrom] reported no
    error. *)
Theorem success_characterisation (g : GlobalState) (filename : string)
  (rf : ReaderFrom) :
  outcome g filename rf = Returned None
  <-> exists req resp,
        In (EvDo req) (trace g filename rf)
        /\ Do req = inl resp
        /\ StatusCode resp = http_StatusOK
        /\ snd (ReadFrom rf (respBody resp)) = None.
Proof.
  split.
  - unfold outcome. intros Hout.
    destruct (run_shape g filename rf); rewrite Hrun in Hout; cbn [snd] in Hout;
      try discriminate.
    exists (outbound g filename (RemoteAddr rf)), resp.
    repeat (split; [assumption|]).
    destruct (snd (ReadFrom rf (respBody resp))); [discriminate | reflexivity].
  - intros (req & resp & Hin & Hdo & Hk & Hread). unfold outcome.
    rewrite (run_ok g filename rf req resp Hin Hdo Hk). cbn [snd].
    rewrite Hread. reflexivity.
Qed.

(** X3: the handler panics exactly when the value it is given is not an
    outgoing transfer, and then on its first line, before any event; with
    an outgoing transfer it always returns. *)
Theorem panics_only_without_outgoing_transfer (g : GlobalState)
  (filename : string) (rf : ReaderFrom) :
  ((exists msg, outcome g filename rf = Panicked msg)
   <-> isOutgoingTransfer rf = false)
  /\ (isOutgoingTransfer rf = false -> trace g filename rf = nil)
  /\ (isOutgoingTransfer rf = true -> exists r, outcome g filename rf = Returned r).
Proof.
  unfold outcome, trace.
  destruct (run_shape g filename rf);
    try (destruct (dispatched_inv g filename rf _ Hin) as (Hrf & _ & _));
    rewrite Hrun; cbn [fst snd]; rewrite Hrf.
  1: { split; [split; [reflexivity | intros _; eexists; reflexivity]|].
       split; [reflexivity | discriminate]. }
  all: split; [split; [intros [msg H]; discriminate | discriminate]|];
    split; [discriminate | intros _; eexists; reflexivity].
Qed.

(** X4: one invocation constructs at most one request, dispatches at most
    one fetch, declares at most one size, hands over at most one body and
    closes at most one body: the handler never retries. *)
Theorem single_attempt (g : GlobalState) (filename : string) (rf : ReaderFrom) :
  count requestEvent (trace g filename rf) <= 1
  /\ count dispatchEvent (trace g filename rf) <= 1
  /\ count sizeEvent (trace g filename rf) <= 1
  /\ count readEvent (trace g filename rf) <= 1
  /\ count closeEvent (trace g filename rf) <= 1.
Proof.
  unfold trace, count.
  destruct (run_shape g filename rf); rewrite Hrun; cbn [fst];
    unfold preamble; destruct (authUsername g =? "");
    try (destruct (ContentLength resp >=? 0)%Z;
         destruct (snd (ReadFrom rf (respBody resp))));
    cbn; repeat split; lia.
Qed.

(** X5: the sink is touched only in answer to a 200 response: every size
    declared is the content length of that response, which is then not
    negative, and every body handed over is the body of that response. *)
Theorem sink_touched_only_on_ok (g : GlobalState) (filename : string)
  (rf : ReaderFrom) (e : Event) :
  In e (trace g filename rf) ->
  sinkEvent e = true ->
  exists req resp,
    In (EvDo req) (trace g filename rf)
    /\ Do req = inl resp
    /\ StatusCode resp = http_StatusOK
    /\ (e = EvReadFrom (respBody resp)
        \/ e = EvSetSize (ContentLength resp) /\ (0 <= ContentLength resp)%Z).
Proof.
  intros He Hsink.
  pose proof (preamble_events g filename (RemoteAddr rf)) as (_ & Hpre & _).
  destruct (run_shape g filename rf) as
    [msg Hrf Hrun | err Hrf Hreq Hrun | err Hin Hdo Hrun | resp Hin Hdo Hs Hrun
    | resp Hin Hdo Hs Hk Hrun | resp Hin Hdo Hk Hrun].
  1-5: exfalso; unfold trace in He; rewrite Hrun in He; cbn [fst] in He;
    try (apply in_app_or in He; destruct He as [He|He];
         [apply (none_In Hpre) in He; congruence|]);
    cbn in He;
    repeat (destruct He as [He|He]; [subst e; discriminate|]); exact He.
  exists (outbound g filename (RemoteAddr rf)), resp.
  repeat (split; [assumption|]).
  unfold trace in He. rewrite Hrun in He. cbn [fst] in He.
  apply in_app_or in He. destruct He as [He|He];
    [apply (none_In Hpre) in He; congruence|].
  destruct (ContentLength resp >=? 0)%Z eqn:Hlen;
    destruct (snd (ReadFrom rf (respBody resp))); cbn in He;
    repeat (destruct He as [He|He];
            [subst e; first [discriminate
                            | left; reflexivity
                            | right; split; [reflexivity | apply Z.geb_le; exact Hlen]]|]);
    destruct He.
Qed.

(** X6: what the handler closes is the body of the response that [Do]
    returned: it closes nothing when no response arrived. *)
Theorem closes_only_the_response (g : GlobalState) (filename : string)
  (rf : ReaderFrom) (b : Body) :
  In (EvBodyClose b) (trace g filename rf) ->
  exists req resp,
    In (EvDo req) (trace g filename rf)
    /\ Do req = inl resp
    /\ b = respBody resp.
Proof.
  intros He.
  pose proof (preamble_events g filename (RemoteAddr rf)) as (_ & _ & Hpre).
  destruct (run_shape g filename rf) as
    [msg Hrf Hrun | err Hrf Hreq Hrun | err Hin Hdo Hrun | resp Hin Hdo Hs Hrun
    | resp Hin Hdo Hs Hk Hrun | resp Hin Hdo Hk Hrun].
  1-3: exfalso; unfold trace in He; rewrite Hrun in He; cbn [fst] in He;
    try (apply in_app_or in He; destruct He as [He|He];
         [apply (none_In Hpre) in He; discriminate|]);
    cbn in He;
    repeat (destruct He as [He|He]; [discriminate|]); exact He.
  all: exists (outbound g filename (RemoteAddr rf)), resp;
    repeat (split; [assumption|]);
    unfold trace in He; rewrite Hrun in He; cbn [fst] in He;
    apply in_app_or in He; destruct He as [He|He];
    [apply (none_In Hpre) in He; discriminate|];
    try (destruct (ContentLength resp >=? 0)%Z;
         destruct (snd (ReadFrom rf (respBody resp))));
    cbn in He;
    repeat (destruct He as [He|He]; [first [discriminate | now inversion He]|]);
    destruct He.
Qed.

(** X7: the request is complete when it is dispatched and is left alone
    afterwards: the construction, the header fields and the credentials
    all come before [Do], the sink and the body only after it. *)
Theorem request_complete_before_dispatch (g : GlobalState) (filename : string)
  (rf : ReaderFrom) (req : Request) :
  In (EvDo req) (trace g filename rf) ->
  exists pre post,
    trace g filename rf = (pre ++ EvDo req :: post)%list
    /\ none dispatchEvent pre /\ none sinkEvent pre /\ none closeEvent pre
    /\ none dispatchEvent post /\ none attachEvent post
    /\ none requestEvent post.
Proof.
  intros Hin.
  exists (preamble g filename (RemoteAddr rf)), (fst (respond rf (Do req))).
  split; [exact (trace_dispatched g filename rf req Hin)|].
  pose proof (preamble_events g filename (RemoteAddr rf)) as (H1 & H2 & H3).
  pose proof (respond_events rf (Do req)) as (H4 & H5 & H6).
  repeat (split; [assumption|]).
  unfold none. apply forallb_forall. intros e He.
  destruct e; try reflexivity. exfalso. exact (H6 _ _ He).
Qed.

(** X8: every error the handler returns has been logged.  An error that
    comes from a library is logged with its text, after the name of the
    step that failed; an error made from the status is logged with the
    status line of the response. *)
Theorem errors_are_logged (g : GlobalState) (filename : string)
  (rf : ReaderFrom) (e : error) :
  outcome g filename rf = Returned (Some e) ->
  (exists err step,
     e = Lib err
     /\ In step ("ERR: http request setup failed: "
                 :: "ERR: http request failed: "
                 :: "ERR: ReadFrom failed: " :: nil)%list
     /\ In (EvLog (step ++ LibErr_Error err)) (trace g filename rf))
  \/ (exists req resp,
        In (EvDo req) (trace g filename rf)
        /\ Do req = inl resp
        /\ ((e = Errorf "File not found"
             /\ In (EvLog ("INFO: http FileNotFound response: " ++ Status resp))
                  (trace g filename rf))
            \/ (e = Errorf ("HTTP request error: " ++ Status resp)
                /\ In (EvLog ("ERR: http request returned status " ++ Status resp))
                     (trace g filename rf)))).
Proof.
  unfold outcome, trace. intros Hout.
  destruct (run_shape g filename rf) as
    [msg Hrf Hrun | err Hrf Hreq Hrun | err Hin Hdo Hrun | resp Hin Hdo Hs Hrun
    | resp Hin Hdo Hs Hk Hrun | resp Hin Hdo Hk Hrun];
    try unfold trace in Hin; rewrite Hrun in *; cbn [fst snd] in *.
  - discriminate.
  - inversion Hout; subst e. left. exists err, "ERR: http request setup failed: ".
    split; [reflexivity|]. split; [left; reflexivity|].
    right. right. left. reflexivity.
  - inversion Hout; subst e. left. exists err, "ERR: http request failed: ".
    split; [reflexivity|]. split; [right; left; reflexivity|].
    apply in_or_app. right. right. left. reflexivity.
  - inversion Hout; subst e. right. exists (outbound g filename (RemoteAddr rf)), resp.
    split; [exact Hin|]. split; [exact Hdo|]. left.
    split; [reflexivity|]. apply in_or_app. right. right. left. reflexivity.
  - inversion Hout; subst e. right. exists (outbound g filename (RemoteAddr rf)), resp.
    split; [exact Hin|]. split; [exact Hdo|]. right.
    split; [reflexivity|]. apply in_or_app. right. right. left. reflexivity.
  - destruct (snd (ReadFrom rf (respBody resp))) as [err|]; [|discriminate].
    inversion Hout; subst e. left. exists err, "ERR: ReadFrom failed: ".
    split; [reflexivity|]. split; [right; right; left; reflexivity|].
    apply in_or_app. right. right. apply in_or_app. left.
    apply in_or_app. right. right. left. reflexivity.
Qed.

(** ** Further properties of the target *)

(** A string that does not start with a separator is left as it is. *)
Lemma TrimLeft_outside (s cutset : string) :
  strings.startsOutside cutset s -> strings.TrimLeft s cutset = s.
Proof.
  destruct s as [|c rest]; cbn; [reflexivity|]. intros ->. reflexivity.
Qed.

Lemma append_cancel_nil (a x : string) : a ++ x = a -> x = "".
Proof.
  induction a as [|c a IH]; cbn; intros H; [exact H|].
  inversion H. now apply IH.
Qed.

(** X9: separators in front of a file name do not change the target, and a
    file name that starts with another byte is appended to the base as it
    is, with its inner and trailing separators. *)
Theorem leading_separators_irrelevant (g : GlobalState) (n : nat)
  (filename : string) :
  fetchURI g (strings.Repeat "/"%char n ++ filename) = fetchURI g filename
  /\ (appendPath g = true ->
      strings.startsOutside slash filename ->
      fetchURI g filename = httpBaseUrl g ++ filename).
Proof.
  unfold fetchURI. split.
  - rewrite TrimLeft_Repeat_slash. reflexivity.
  - intros -> Hout. rewrite (TrimLeft_outside filename slash Hout). reflexivity.
Qed.

(** X10: with [appendPath], the target is the base address itself for the
    file names made of separators and for no other. *)
Theorem target_is_base_only_for_separators (g : GlobalState)
  (filename : string) :
  appendPath g = true ->
  (fetchURI g filename = httpBaseUrl g
   <-> exists n, filename = strings.Repeat "/"%char n).
Proof.
  intros Hap. unfold fetchURI. rewrite Hap. split.
  - intros H. apply append_cancel_nil in H.
    destruct (TrimLeft_slash_run filename) as [n Hn].
    exists n. rewrite H in Hn. rewrite Hn. apply append_nil_r.
  - intros [n ->].
    rewrite <- (append_nil_r (strings.Repeat "/"%char n)).
    rewrite TrimLeft_Repeat_slash. cbn. apply append_nil_r.
Qed.

(** X11: without a user name the password plays no part: two
    configurations that differ in the password only give the same run. *)
Theorem password_unused_without_username (g g' : GlobalState)
  (filename : string) (rf : ReaderFrom) :
  httpBaseUrl g = httpBaseUrl g' ->
  appendPath g = appendPath g' ->
  authUsername g = "" ->
  authUsername g' = "" ->
  tftpReadHandler g filename rf = tftpReadHandler g' filename rf.
Proof.
  destruct g as [base ap user pass], g' as [base' ap' user' pass'].
  cbn. intros <- <- -> ->.
  unfold tftpReadHandler, decorate, fetchURI. cbn. reflexivity.
Qed.

(** ** Further properties of the startup *)

(** When [parseBaseURL] returns, it has logged nothing, the string was
    accepted with a scheme and a host, and the result is the normalised
    form, with a separator added under the condition of line 103. *)
Lemma parse_returned_inv (baseUrl : string) (ap : bool) (t : list Event)
  (base : string) :
  call (parseBaseURL baseUrl ap) = (t, Returned base) ->
  t = nil
  /\ exists u,
       ParseRequestURI baseUrl = inl u
       /\ Scheme u <> "" /\ Host u <> ""
       /\ base = (if ap && negb (strings.HasSuffix (URL_String u) slash)
                  then URL_String u ++ slash else URL_String u).
Proof.
  intros Hret.
  destruct (ParseRequestURI baseUrl) as [u|err] eqn:H.
  2:{ rewrite (parse_refused baseUrl ap err H) in Hret. discriminate. }
  destruct (string_dec (Scheme u) "") as [Hs|Hs].
  { rewrite (parse_no_scheme baseUrl ap u H Hs) in Hret. discriminate. }
  destruct (string_dec (Host u) "") as [Hh|Hh].
  { rewrite (parse_no_host baseUrl ap u H Hs Hh) in Hret. discriminate. }
  rewrite (parse_accepted baseUrl ap u H Hs Hh) in Hret.
  inversion Hret. split; [reflexivity|].
  exists u. repeat split; assumption.
Qed.

Lemma configure_inv (fl : Flags) (t : list Event) (g : GlobalState) :
  configure (R:=unit) fl = (t, Next g) ->
  call (parseBaseURL (flag_http_base_url fl) (flag_http_append_path fl))
  = (nil, Returned (httpBaseUrl g))
  /\ t = nil
  /\ g = mkGlobalState (httpBaseUrl g) (flag_http_append_path fl)
           (flag_http_auth_user fl) (flag_http_auth_pass fl).
Proof.
  unfold configure, invoke. intros Hcfg.
  destruct (call (parseBaseURL (flag_http_base_url fl) (flag_http_append_path fl)))
    as [t' [base|msg]] eqn:Hp; cbn in Hcfg; [|discriminate].
  inversion Hcfg; subst. cbn [httpBaseUrl].
  destruct (parse_returned_inv _ _ _ _ Hp) as (-> & _).
  repeat split.
Qed.

(** X12: the configuration that [main] installs holds the flags as given
    and, with [appendPath], a base address that ends in a separator, as the
    comment of lines 42-46 assumes.  Every file name is then a run of
    separators followed by a string that does not start with one, and its
    target is the base followed by that string: base and name are joined
    by the separator of the base alone. *)
Theorem configured_base_joins_cleanly (fl : Flags) (t : list Event)
  (g : GlobalState) :
  configure (R:=unit) fl = (t, Next g) ->
  appendPath g = flag_http_append_path fl
  /\ authUsername g = flag_http_auth_user fl
  /\ authPassword g = flag_http_auth_pass fl
  /\ (appendPath g = true ->
      strings.HasSuffix (httpBaseUrl g) slash = true
      /\ forall filename,
           exists p n rest,
             httpBaseUrl g = p ++ slash
             /\ filename = strings.Repeat "/"%char n ++ rest
             /\ (forall tail, rest <> String "/"%char tail)
             /\ fetchURI g filename = (p ++ slash) ++ rest).
Proof.
  intros Hcfg. destruct (configure_inv fl t g Hcfg) as (Hp & _ & Hg).
  rewrite Hg. cbn [appendPath authUsername authPassword httpBaseUrl].
  repeat (split; [reflexivity|]).
  intros Hap. rewrite Hap in Hp.
  destruct (parse_returned_inv _ _ _ _ Hp) as (_ & u & _ & _ & _ & Hbase).
  assert (Hsuf : strings.HasSuffix (httpBaseUrl g) slash = true).
  { rewrite Hbase. cbn [andb].
    destruct (strings.HasSuffix (URL_String u) slash) eqn:Hu; cbn [negb].
    - exact Hu.
    - apply HasSuffix_iff. now exists (URL_String u). }
  split; [exact Hsuf|]. intros filename.
  apply HasSuffix_iff in Hsuf. destruct Hsuf as [p Hp'].
  destruct (TrimLeft_slash_run filename) as [n Hn].
  exists p, n, (strings.TrimLeft filename slash).
  split; [exact Hp'|]. split; [exact Hn|].
  split; [apply TrimLeft_slash_head|].
  unfold fetchURI. cbn [appendPath httpBaseUrl]. rewrite Hap, Hp'. reflexivity.
Qed.

(** X13: once the base address is accepted, the result of [main] is
    decided by [ListenAndServe2] alone: an error from it makes [main] log
    and panic with "FATAL: tftp server: " and the error, no error makes
    [main] return.  What [SdNotify] answers plays no part in it. *)
Theorem server_failure_is_fatal (fl : Flags) (base : string) :
  snd (call (parseBaseURL (flag_http_base_url fl) (flag_http_append_path fl)))
  = Returned base ->
  (forall err,
     snd (ListenAndServe2 (flag_tftp_bind_address fl)) = Some err ->
     snd (call (main fl))
     = Panicked ("FATAL: tftp server: " ++ LibErr_Error err ++ LF)
     /\ In (EvLog ("FATAL: tftp server: " ++ LibErr_Error err ++ LF))
          (fst (call (main fl))))
  /\ (snd (ListenAndServe2 (flag_tftp_bind_address fl)) = None ->
      snd (call (main fl)) = Returned tt).
Proof.
  intros Hret.
  destruct (call (parseBaseURL (flag_http_base_url fl) (flag_http_append_path fl)))
    as [t r] eqn:Hp.
  cbn [snd] in Hret. subst r.
  destruct (parse_returned_inv _ _ _ _ Hp) as (-> & _).
  unfold main, configure, invoke. rewrite Hp. cbn.
  destruct (ListenAndServe2 (flag_tftp_bind_address fl)) as [listening e].
  cbn [snd]. split.
  - intros err ->.
    destruct listening; cbn;
      repeat match goal with
      | |- context [SdNotify ?a ?b] =>
          destruct (SdNotify a b) as [[|] [e'|]]; cbn
      end;
      (split; [reflexivity|]);
      repeat (first [left; reflexivity | right]).
  - intros ->.
    destruct listening; cbn;
      repeat match goal with
      | |- context [SdNotify ?a ?b] =>
          destruct (SdNotify a b) as [[|] [e'|]]; cbn
      end; reflexivity.
Qed.

(** X14: a failure to notify the supervisor is logged and nothing more:
    when the server listens and [SdNotify] returns an error, [main] logs a
    warning with the error and goes on to the result of the server. *)
Theorem notification_failure_is_not_fatal (fl : Flags) (base : string)
  (sent : bool) (err : LibErr) :
  snd (call (parseBaseURL (flag_http_base_url fl) (flag_http_append_path fl)))
  = Returned base ->
  ListenAndServe2 (flag_tftp_bind_address fl) = (true, None) ->
  SdNotify true ("READY=1" ++ LF) = (sent, Some err) ->
  call (main fl)
  = ((EvNewServer
      :: EvSetTimeout (flag_tftp_timeout fl)
      :: EvListenAndServe (flag_tftp_bind_address fl)
      :: EvLog ("INFO: Listening TFTP requests on: " ++ flag_tftp_bind_address fl)
      :: EvSdNotify ("READY=1" ++ LF)
      :: EvLog ("WARN: Unable to send systemd daemon successful start message: "
                ++ LibErr_Error err ++ LF)
      :: nil)%list,
     Returned tt).
Proof.
  intros Hret Hlisten Hnotify.
  destruct (call (parseBaseURL (flag_http_base_url fl) (flag_http_append_path fl)))
    as [t r] eqn:Hp.
  cbn [snd] in Hret. subst r.
  destruct (parse_returned_inv _ _ _ _ Hp) as (-> & _).
  unfold main, configure, invoke, onListening. rewrite Hp, Hlisten, Hnotify.
  destruct sent; reflexivity.
Qed.

End Bridge.

Arguments mkUDPAddr {IP} addrIP addrPort.
Arguments mkResponse {Body} StatusCode Status ContentLength respBody.
Arguments mkReaderFrom {LibErr IP Body} isOutgoingTransfer RemoteAddr ReadFrom.
Arguments Errorf {LibErr} msg.
Arguments Lib {LibErr} e.
Arguments Error {LibErr} LibErr_Error e.
Arguments EvLog {Body} msg.
Arguments EvNewRequest {Body} method uri.
Arguments EvHeaderAdd {Body} key value.
Arguments EvSetBasicAuth {Body} username password.
Arguments EvDo {Body} req.
Arguments EvBodyClose {Body} b.
Arguments EvSetSize {Body} n.
Arguments EvReadFrom {Body} b.
Arguments EvNewServer {Body}.
Arguments EvSetTimeout {Body} d.
Arguments EvListenAndServe {Body} addr.
Arguments EvSdNotify {Body} state.
Arguments none {Body} p t.
Arguments sinkEvent {Body} e.
Arguments attachEvent {Body} e.
Arguments dispatchEvent {Body} e.
Arguments closeEvent {Body} e.
Arguments outbound {IP} IP_String g filename raddr.
Arguments StatusCode {Body} r.
Arguments Status {Body} r.
Arguments ContentLength {Body} r.
Arguments respBody {Body} r.
Arguments requestEvent {Body} e.
Arguments sizeEvent {Body} e.
Arguments readEvent {Body} e.
Arguments count {Body} p t.
Arguments configure {LibErr} LibErr_Error {URL} Scheme Host URL_String
  ParseRequestURI Body {R} fl.
Arguments tftpReadHandler {LibErr} LibErr_Error {IP} IP_String {Body}
  NewRequest_refuses Do g filename rf.
Arguments trace {LibErr} LibErr_Error {IP} IP_String {Body}
  NewRequest_refuses Do g filename rf.
Arguments outcome {LibErr} LibErr_Error {IP} IP_String {Body}
  NewRequest_refuses Do g filename rf.
Arguments parseBaseURL {LibErr} LibErr_Error {URL} Scheme Host URL_String
  ParseRequestURI Body baseUrl appendPath.
Arguments main {LibErr} LibErr_Error {URL} Scheme Host URL_String
  ParseRequestURI Body ListenAndServe2 SdNotify fl.

(** ** A concrete setting

    The theorems above hold for every behaviour of the libraries.  To run
    the program, this module fixes one: a reduced URL parser, an origin that
    serves a few addresses, and a sink that accepts every body.  None of it
    belongs to the program. *)

Module Scenario.

(** A reduced [url.URL]: addresses of the form [scheme://host/path], and
    absolute paths. *)
Record URL : Type := mkURL { Scheme : string; Host : string; Path : string }.

Definition URL_String (u : URL) : string :=
  Scheme u ++ "://" ++ Host u ++ Path u.

Definition ParseRequestURI (s : string) : URL + string :=
  match index 0 "://" s with
  | Some i =>
      let rest := substring (i + 3) (String.length s - (i + 3)) s in
      match index 0 "/" rest with
      | Some j =>
          inl (mkURL (substring 0 i s) (substring 0 j rest)
                 (substring j (String.length rest - j) rest))
      | None => inl (mkURL (substring 0 i s) rest "")
      end
  | None =>
      if prefix "/" s then inl (mkURL "" "" s)
      else inr ("parse " ++ s ++ ": invalid URI for request")
  end.

(** [http.NewRequest] refuses a target with a line feed in it. *)
Definition NewRequest_refuses (method uri : string) : option string :=
  match index 0 LF uri with
  | Some _ => Some "net/url: invalid control character in URL"
  | None => None
  end.

(** The origin: two files, one address that fails, one host that is down,
    and nothing else. *)
Definition Do (req : Request) : Response string + string :=
  if reqURL req =? "http://127.0.0.1/tftp/boot.img" then
    inl (mkResponse 200 "200 OK" 4 "boot")
  else if reqURL req =? "http://host/x/a/b.bin" then
    inl (mkResponse 200 "200 OK" (-1) "chunked")
  else if reqURL req =? "http://127.0.0.1/tftp/broken" then
    inl (mkResponse 500 "500 Internal Server Error" 0 "")
  else if prefix "http://down/" (reqURL req) then
    inr "dial tcp: connection refused"
  else inl (mkResponse 404 "404 Not Found" 9 "not found").

(** The peer and its sink. *)
Definition peer : UDPAddr string := mkUDPAddr "192.0.2.7" 49152.

Definition sink : ReaderFrom string string string :=
  mkReaderFrom true peer (fun b => (Z.of_nat (String.length b), None)).

(** A sink whose peer stops acknowledging. *)
Definition deadSink : ReaderFrom string string string :=
  mkReaderFrom true peer (fun b => (0%Z, Some "timeout")).

Definition ListenAndServe2 (addr : string) : bool * option string :=
  (true, None).

Definition SdNotify (unsetEnvironment : bool) (state : string)
  : bool * option string :=
  (false, None).

(** The program in this setting. *)
Definition handler (g : GlobalState) (filename : string)
  (rf : ReaderFrom string string string)
  : list (Event string) * Result (option (error string)) :=
  call (tftpReadHandler (fun e => e) (fun ip => ip) NewRequest_refuses Do
          g filename rf).

Definition events (g : GlobalState) (filename : string)
  (rf : ReaderFrom string string string) : list (Event string) :=
  trace (fun e => e) (fun ip => ip) NewRequest_refuses Do g filename rf.

Definition result (g : GlobalState) (filename : string)
  (rf : ReaderFrom string string string) : Result (option (error string)) :=
  outcome (fun e => e) (fun ip => ip) NewRequest_refuses Do g filename rf.

Definition resolve (baseUrl : string) (appendPath : bool) : Result string :=
  snd (call (parseBaseURL (fun e => e) Scheme Host URL_String ParseRequestURI
               string baseUrl appendPath)).

Definition start (fl : Flags) : list (Event string) * Result unit :=
  call (main (fun e => e) Scheme Host URL_String ParseRequestURI string
          ListenAndServe2 SdNotify fl).

(** Three configurations, as [main] leaves them in [globalState]. *)
Definition gDefault : GlobalState :=
  mkGlobalState "http://127.0.0.1/tftp/" true "" "".

Definition gHost : GlobalState :=
  mkGlobalState "http://host/x/" true "netboot" "".

Definition gFixed : GlobalState :=
  mkGlobalState "http://127.0.0.1/tftp" false "" "".

Definition defaultFlags : Flags :=
  mkFlags httpBaseUrlDefault appendPathDefault tftpTimeoutDefault
    tftpBindAddrDefault "" "".

(** The request built for [/a/b.bin] under [gHost], and what the origin
    answers where it has nothing. *)
Definition reqHost : Request := outbound (fun ip => ip) gHost "/a/b.bin" peer.

Definition notFound : Response string :=
  mkResponse 404 "404 Not Found" 9 "not found".

(** *** The program on the scenarios of the specification *)

Example resolve_default :
  resolve "http://127.0.0.1/tftp" true = Returned "http://127.0.0.1/tftp/".
Proof. reflexivity. Qed.

Example target_default :
  fetchURI gDefault "boot.img" = "http://127.0.0.1/tftp/boot.img".
Proof. reflexivity. Qed.

Example target_leading_separator :
  fetchURI gHost "/a/b.bin" = "http://host/x/a/b.bin".
Proof. reflexivity. Qed.

Example target_fixed :
  fetchURI gFixed "boot.img" = "http://127.0.0.1/tftp".
Proof. reflexivity. Qed.

Example run_boot_img :
  handler gDefault "boot.img" sink
  = ((EvLog "INFO: New TFTP request (boot.img) from 192.0.2.7"
      :: EvNewRequest "GET" "http://127.0.0.1/tftp/boot.img"
      :: EvLog "URI: http://127.0.0.1/tftp/boot.img"
      :: EvHeaderAdd "X-TFTP-IP" "192.0.2.7"
      :: EvHeaderAdd "X-TFTP-Port" "49152"
      :: EvHeaderAdd "X-TFTP-File" "boot.img"
      :: EvDo (mkRequest "GET" "http://127.0.0.1/tftp/boot.img"
                 (("X-Tftp-Ip", "192.0.2.7" :: nil)
                  :: ("X-Tftp-Port", "49152" :: nil)
                  :: ("X-Tftp-File", "boot.img" :: nil) :: nil))
      :: EvSetSize 4
      :: EvReadFrom "boot"
      :: EvBodyClose "boot" :: nil)%list,
     Returned None).
Proof. reflexivity. Qed.

Example run_dead_peer :
  result gHost "/a/b.bin" deadSink = Returned (Some (Lib "timeout")).
Proof. reflexivity. Qed.

Example run_origin_down :
  result (mkGlobalState "http://down/" true "" "") "boot.img" sink
  = Returned (Some (Lib "dial tcp: connection refused")).
Proof. reflexivity. Qed.

Example start_default :
  fst (start defaultFlags)
  = (EvNewServer
     :: EvSetTimeout 5000000000
     :: EvListenAndServe ":69"
     :: EvLog "INFO: Listening TFTP requests on: :69"
     :: EvSdNotify ("READY=1" ++ LF)
     :: EvLog ("DEBUG: Systemd notifications are not supported." ++ LF)
     :: nil)%list.
Proof. reflexivity. Qed.

(** *** The theorems at work *)

Ltac member := cbv; repeat (first [left; reflexivity | right]).

Lemma fetch_target_composition_witness :
  fetchURI gHost "/a/b.bin" = "http://host/x/a/b.bin"
  /\ fetchURI gHost "//boot/x.img" = "http://host/x/boot/x.img"
  /\ fetchURI gFixed "/a/b.bin" = "http://127.0.0.1/tftp".
Proof.
  split; [|split].
  - destruct (fetch_target_composition _ (fun e => e) _ (fun ip => ip) _
                NewRequest_refuses Do gHost "/a/b.bin")
      as (_ & _ & _ & _ & Hrun & _).
    destruct (Hrun 1 "a/b.bin" eq_refl) as [_ Huri].
    + intros tail. discriminate.
    + exact (Huri eq_refl).
  - exact (proj1 (fetch_target_composition _ (fun e => e) _ (fun ip => ip) _
                    NewRequest_refuses Do gHost "//boot/x.img") eq_refl).
  - exact (proj1 (proj1 (proj2 (fetch_target_composition _ (fun e => e) _
                                  (fun ip => ip) _ NewRequest_refuses Do
                                  gFixed "/a/b.bin")) eq_refl)).
Defined.

Lemma status_interpretation_witness :
  result gFixed "anything" sink = Returned (Some (Errorf "File not found")).
Proof.
  refine (proj1 (proj1 (status_interpretation _ (fun e => e) _ (fun ip => ip) _
                          NewRequest_refuses Do gFixed "anything" sink)
                   (outbound (fun ip => ip) gFixed "anything" peer) notFound
                   _ _) _).
  - member.
  - reflexivity.
  - reflexivity.
Defined.

(** A sink whose [ReadFrom] fails with an error that reads "File not
    found". *)
Definition liarSink : ReaderFrom string string string :=
  mkReaderFrom true peer (fun b => (0%Z, Some "File not found")).

(** The not-found error is not told apart from every other failure: the
    origin answers 200 for [boot.img], the delivery to the peer fails, and
    the error the handler returns reads exactly like the one it returns
    for a 404. *)
Lemma not_found_text_is_shared :
  exists e,
    result gDefault "boot.img" liarSink = Returned (Some e)
    /\ (exists req resp,
          In (EvDo req) (events gDefault "boot.img" liarSink)
          /\ Do req = inl resp
          /\ StatusCode resp = http_StatusOK)
    /\ e <> Errorf "File not found"
    /\ result gFixed "anything" sink = Returned (Some (Errorf "File not found"))
    /\ Error (fun text => text) e
       = Error (fun text => text) (Errorf "File not found").
Proof.
  exists (Lib "File not found").
  split; [reflexivity|]. split.
  - exists (outbound (fun ip => ip) gDefault "boot.img" peer).
    exists (mkResponse 200 "200 OK" 4 "boot").
    split; [member|]. split; reflexivity.
  - split; [discriminate|]. split; reflexivity.
Qed.

Lemma size_hint_precedes_bytes_witness :
  exists pre post,
    events gDefault "boot.img" sink
    = (pre ++ EvSetSize 4 :: EvReadFrom "boot" :: post)%list
    /\ none sinkEvent pre /\ none sinkEvent post.
Proof.
  refine (proj1 (size_hint_precedes_bytes _ (fun e => e) _ (fun ip => ip) _
                   NewRequest_refuses Do gDefault "boot.img" sink
                   (outbound (fun ip => ip) gDefault "boot.img" peer)
                   (mkResponse 200 "200 OK" 4 "boot") _ _ _) _).
  - member.
  - reflexivity.
  - reflexivity.
  - discriminate.
Defined.

Lemma base_url_validation_witness :
  exists base,
    snd (call (parseBaseURL (fun e => e) Scheme Host URL_String ParseRequestURI
                 string (flag_http_base_url defaultFlags)
                 (flag_http_append_path defaultFlags)))
    = Returned base.
Proof.
  apply (base_url_validation _ (fun e => e) _ Scheme Host URL_String
           ParseRequestURI string ListenAndServe2 SdNotify defaultFlags).
  exists (mkURL "http" "127.0.0.1" "/tftp").
  split; [reflexivity|]. split; discriminate.
Defined.

Lemma base_url_normalisation_witness :
  resolve "http://127.0.0.1/tftp" true = Returned ("http://127.0.0.1/tftp" ++ slash)
  /\ strings.HasSuffix ("http://127.0.0.1/tftp" ++ slash) slash = true
  /\ strings.HasSuffix ("http://127.0.0.1/tftp" ++ slash) (slash ++ slash) = false.
Proof.
  refine (proj1 (base_url_normalisation _ (fun e => e) _ Scheme Host URL_String
                   ParseRequestURI string "http://127.0.0.1/tftp"
                   (mkURL "http" "127.0.0.1" "/tftp") _ _ _) _).
  - reflexivity.
  - discriminate.
  - discriminate.
  - reflexivity.
Defined.

Lemma outbound_request_metadata_witness :
  http.values (Header reqHost) "X-Tftp-Ip" = ("192.0.2.7" :: nil)%list
  /\ http.values (Header reqHost) "X-Tftp-Port" = ("49152" :: nil)%list
  /\ option_map Z.of_int
       (NilZero.int_of_string (http.Get (Header reqHost) "X-TFTP-Port"))
     = Some 49152%Z
  /\ http.values (Header reqHost) "X-Tftp-File" = ("/a/b.bin" :: nil)%list
  /\ http.Get (Header reqHost) "X-TFTP-File" = "/a/b.bin"
  /\ http.values (Header reqHost) "Authorization"
     = ("Basic bmV0Ym9vdDo=" :: nil)%list
  /\ In (EvSetBasicAuth "netboot" "") (events gHost "/a/b.bin" sink)
  /\ http.values (Header reqHost) "X-TFTP-IP" = nil.
Proof.
  destruct (proj1 (outbound_request_metadata _ (fun e => e) _ (fun ip => ip) _
                     NewRequest_refuses Do gHost "/a/b.bin" sink) reqHost)
    as (Hip & Hport & Hread & Hfile & Hget & Hauth & _ & Hother).
  - member.
  - destruct Hauth as [Hvalue Hcall]; [discriminate|].
    repeat (split; [assumption|]).
    apply Hother; discriminate.
Defined.

Lemma response_body_closed_witness :
  exists pre r,
    handler gFixed "anything" sink
    = ((pre ++ EvBodyClose "not found" :: nil)%list, Returned r)
    /\ none closeEvent pre.
Proof.
  refine (response_body_closed _ (fun e => e) _ (fun ip => ip) _
            NewRequest_refuses Do gFixed "anything" sink
            (outbound (fun ip => ip) gFixed "anything" peer) notFound _ _).
  - member.
  - reflexivity.
Defined.

Lemma error_status_leaves_sink_untouched_witness :
  (exists e, result gDefault "broken" sink = Returned (Some e))
  /\ none sinkEvent (events gDefault "broken" sink).
Proof.
  refine (error_status_leaves_sink_untouched _ (fun e => e) _ (fun ip => ip) _
            NewRequest_refuses Do gDefault "broken" sink
            (outbound (fun ip => ip) gDefault "broken" peer)
            (mkResponse 500 "500 Internal Server Error" 0 "") _ _ _).
  - member.
  - reflexivity.
  - discriminate.
Defined.

Lemma request_setup_failure_witness :
  result gDefault ("x" ++ LF) sink
  = Returned (Some (Lib "net/url: invalid control character in URL"))
  /\ events gDefault ("x" ++ LF) sink
     = (EvLog ("INFO: New TFTP request (" ++ ("x" ++ LF) ++ ") from "
               ++ "192.0.2.7")
        :: EvNewRequest "GET" ("http://127.0.0.1/tftp/x" ++ LF)
        :: EvLog ("ERR: http request setup failed: "
                  ++ "net/url: invalid control character in URL")
        :: nil)%list
  /\ none dispatchEvent (events gDefault ("x" ++ LF) sink)
  /\ none attachEvent (events gDefault ("x" ++ LF) sink)
  /\ none sinkEvent (events gDefault ("x" ++ LF) sink).
Proof.
  refine (request_setup_failure _ (fun e => e) _ (fun ip => ip) _
            NewRequest_refuses Do gDefault ("x" ++ LF) sink
            "GET" ("http://127.0.0.1/tftp/x" ++ LF)
            "net/url: invalid control character in URL" _ _).
  - member.
  - reflexivity.
Defined.


(** *** More of the setting: an origin that is down, a port that is
    taken, a supervisor that is not there *)

Definition gDown : GlobalState := mkGlobalState "http://down/" true "" "".

Definition gSecret : GlobalState :=
  mkGlobalState "http://127.0.0.1/tftp/" true "" "secret".

Definition ListenAndServe2Busy (addr : string) : bool * option string :=
  (false, Some "listen udp :69: bind: address already in use").

Definition SdNotifyFails (unsetEnvironment : bool) (state : string)
  : bool * option string :=
  (false, Some "dial unixgram: no such file or directory").

Lemma transport_failure_aborts_witness :
  result gDown "boot.img" sink
  = Returned (Some (Lib "dial tcp: connection refused")).
Proof.
  refine (proj1 (transport_failure_aborts _ (fun e => e) _ (fun ip => ip) _
                   NewRequest_refuses Do gDown "boot.img" sink
                   (outbound (fun ip => ip) gDown "boot.img" peer)
                   "dial tcp: connection refused" _ _)).
  - member.
  - reflexivity.
Defined.

Lemma success_characterisation_witness :
  result gDefault "boot.img" sink = Returned None.
Proof.
  refine (proj2 (success_characterisation _ (fun e => e) _ (fun ip => ip) _
                   NewRequest_refuses Do gDefault "boot.img" sink) _).
  exists (outbound (fun ip => ip) gDefault "boot.img" peer).
  exists (mkResponse 200 "200 OK" 4 "boot").
  split; [member|]. repeat split.
Defined.

Lemma panics_only_without_outgoing_transfer_witness :
  exists r, result gDefault "boot.img" sink = Returned r.
Proof.
  exact (proj2 (proj2 (panics_only_without_outgoing_transfer _ (fun e => e) _
                         (fun ip => ip) _ NewRequest_refuses Do
                         gDefault "boot.img" sink)) eq_refl).
Defined.

Lemma sink_touched_only_on_ok_witness :
  exists req resp,
    In (EvDo req) (events gDefault "boot.img" sink)
    /\ Do req = inl resp
    /\ StatusCode resp = http_StatusOK
    /\ (@EvSetSize string 4 = EvReadFrom (respBody resp)
        \/ @EvSetSize string 4 = EvSetSize (ContentLength resp)
           /\ (0 <= ContentLength resp)%Z).
Proof.
  refine (sink_touched_only_on_ok _ (fun e => e) _ (fun ip => ip) _
            NewRequest_refuses Do gDefault "boot.img" sink (EvSetSize 4) _ _).
  - member.
  - reflexivity.
Defined.

Lemma closes_only_the_response_witness :
  exists req resp,
    In (EvDo req) (events gFixed "anything" sink)
    /\ Do req = inl resp
    /\ "not found" = respBody resp.
Proof.
  refine (closes_only_the_response _ (fun e => e) _ (fun ip => ip) _
            NewRequest_refuses Do gFixed "anything" sink "not found" _).
  member.
Defined.

Lemma request_complete_before_dispatch_witness :
  exists pre post,
    events gHost "/a/b.bin" sink = (pre ++ EvDo reqHost :: post)%list
    /\ none dispatchEvent pre /\ none sinkEvent pre /\ none closeEvent pre
    /\ none dispatchEvent post /\ none attachEvent post
    /\ none requestEvent post.
Proof.
  refine (request_complete_before_dispatch _ (fun e => e) _ (fun ip => ip) _
            NewRequest_refuses Do gHost "/a/b.bin" sink reqHost _).
  member.
Defined.

Definition serverError : error string :=
  Errorf "HTTP request error: 500 Internal Server Error".

Lemma errors_are_logged_witness :
  (exists err step,
     serverError = Lib err
     /\ In step ("ERR: http request setup failed: "
                 :: "ERR: http request failed: "
                 :: "ERR: ReadFrom failed: " :: nil)%list
     /\ In (EvLog (step ++ err)) (events gDefault "broken" sink))
  \/ (exists req resp,
        In (EvDo req) (events gDefault "broken" sink)
        /\ Do req = inl resp
        /\ ((serverError
             = Errorf "File not found"
             /\ In (EvLog ("INFO: http FileNotFound response: " ++ Status resp))
                  (events gDefault "broken" sink))
            \/ (serverError
                = Errorf ("HTTP request error: " ++ Status resp)
                /\ In (EvLog ("ERR: http request returned status " ++ Status resp))
                     (events gDefault "broken" sink)))).
Proof.
  refine (errors_are_logged _ (fun e => e) _ (fun ip => ip) _
            NewRequest_refuses Do gDefault "broken" sink
            (serverError) _).
  reflexivity.
Defined.

Lemma leading_separators_irrelevant_witness :
  fetchURI gDefault "boot.img" = httpBaseUrl gDefault ++ "boot.img".
Proof.
  exact (proj2 (leading_separators_irrelevant gDefault 0 "boot.img")
           eq_refl eq_refl).
Defined.

Lemma target_is_base_only_for_separators_witness :
  fetchURI gDefault "///" = httpBaseUrl gDefault
  <-> exists n, "///" = strings.Repeat "/"%char n.
Proof.
  exact (target_is_base_only_for_separators gDefault "///" eq_refl).
Defined.

Lemma password_unused_without_username_witness :
  tftpReadHandler (fun e => e) (fun ip => ip) NewRequest_refuses Do
    gDefault "boot.img" sink
  = tftpReadHandler (fun e => e) (fun ip => ip) NewRequest_refuses Do
      gSecret "boot.img" sink.
Proof.
  exact (password_unused_without_username _ (fun e => e) _ (fun ip => ip) _
           NewRequest_refuses Do gDefault gSecret "boot.img" sink
           eq_refl eq_refl eq_refl eq_refl).
Defined.

Lemma configured_base_joins_cleanly_witness :
  strings.HasSuffix (httpBaseUrl gDefault) slash = true
  /\ forall filename,
       exists p n rest,
         httpBaseUrl gDefault = p ++ slash
         /\ filename = strings.Repeat "/"%char n ++ rest
         /\ (forall tail, rest <> String "/"%char tail)
         /\ fetchURI gDefault filename = (p ++ slash) ++ rest.
Proof.
  exact (proj2 (proj2 (proj2
           (configured_base_joins_cleanly _ (fun e => e) _ Scheme Host
              URL_String ParseRequestURI string defaultFlags nil gDefault
              eq_refl))) eq_refl).
Defined.

Lemma server_failure_is_fatal_witness :
  snd (call (main (fun e => e) Scheme Host URL_String ParseRequestURI string
               ListenAndServe2Busy SdNotify defaultFlags))
  = Panicked ("FATAL: tftp server: "
              ++ "listen udp :69: bind: address already in use" ++ LF).
Proof.
  exact (proj1 (proj1 (server_failure_is_fatal _ (fun e => e) _ Scheme Host
                         URL_String ParseRequestURI string
                         ListenAndServe2Busy SdNotify defaultFlags
                         "http://127.0.0.1/tftp/" eq_refl)
                  "listen udp :69: bind: address already in use" eq_refl)).
Defined.

Lemma notification_failure_is_not_fatal_witness :
  call (main (fun e => e) Scheme Host URL_String ParseRequestURI string
          ListenAndServe2 SdNotifyFails defaultFlags)
  = ((EvNewServer
      :: EvSetTimeout (flag_tftp_timeout defaultFlags)
      :: EvListenAndServe (flag_tftp_bind_address defaultFlags)
      :: EvLog ("INFO: Listening TFTP requests on: "
                ++ flag_tftp_bind_address defaultFlags)
      :: EvSdNotify ("READY=1" ++ LF)
      :: EvLog ("WARN: Unable to send systemd daemon successful start message: "
                ++ "dial unixgram: no such file or directory" ++ LF)
      :: nil)%list,
     Returned tt).
Proof.
  exact (notification_failure_is_not_fatal _ (fun e => e) _ Scheme Host
           URL_String ParseRequestURI string ListenAndServe2 SdNotifyFails
           defaultFlags "http://127.0.0.1/tftp/" false
           "dial unixgram: no such file or directory"
           eq_refl eq_refl eq_refl).
Defined.

End Scenario.
